(** * The Azure scale-set driver of the cluster autoscaler

    A shallow embedding of
    [cluster-autoscaler/cloudprovider/azure/azure_scale_set.go].

    The driver is stateful Go code: it mutates the receiver [ScaleSet],
    the package-level [scaleSetStatusCache], takes mutexes, reads the
    clock, calls the Azure SDK and spawns goroutines.  All of that is
    threaded through one explicit [World]; a method of the driver is a
    state transformer [M A = World -> A * World].

    Conventions of the embedding

    - Go [int] and [int64] are 64-bit two's complement integers, kept as
      [Z] with the wrap-around of [+], [-] and [*] written out
      ([add64], [sub64], [mul64]).  The conversions [int(x)] and
      [int64(x)] between them are the identity.
    - [time.Time] and [time.Duration] are [Z] nanoseconds; the zero
      [time.Time] is [0].
    - A Go result pair [(v, err)] whose value is read together with the
      error is a pair [A * error], with [None] for [nil]; a pair whose
      value is a zero struct on the error path is a sum.
    - Pointer fields that the code dereferences without a check
      ([*vmss.Name], [*set.Sku.Capacity], [*vm.ID]) are plain fields;
      the one that is checked ([vm.ProvisioningState]) is an [option].
    - The SDK client and the manager lookup are oracles of an
      [AzureManager] value: the answer to a backend call is a function of
      the call and of the history of backend calls before it.
    - Logging ([klog]) and the per-call [context] are left out. *)

From Stdlib Require Import ZArith String Ascii List Bool Lia.
From stdpp Require Import base option list strings gmap.

Local Open Scope Z_scope.

(** ** Machine integers and time *)

Definition int64_min : Z := - 2 ^ 63.
Definition int64_max : Z := 2 ^ 63 - 1.

Definition wrap64 (z : Z) : Z := (z + 2 ^ 63) mod 2 ^ 64 - 2 ^ 63.
Definition add64 (a b : Z) : Z := wrap64 (a + b).
Definition sub64 (a b : Z) : Z := wrap64 (a - b).
Definition mul64 (a b : Z) : Z := wrap64 (a * b).

Definition in_int64 (z : Z) : Prop := int64_min <= z <= int64_max.

Definition Time := Z.
Definition Duration := Z.

Definition Second : Duration := 1000000000.
Definition Minute : Duration := 60 * Second.

Definition Time_Add (t : Time) (d : Duration) : Time := t + d.
Definition Time_After (t u : Time) : bool := u <? t.

Definition defaultVmssSizeRefreshPeriod : Duration := 15 * Second.
Definition vmssInstancesRefreshPeriod : Duration := 5 * Minute.

(** ** Strings *)

Definition lower_ascii (c : ascii) : ascii :=
  let n := N_of_ascii c in
  if ((65 <=? n) && (n <=? 90))%N then ascii_of_N (n + 32) else c.

Fixpoint ToLower (s : string) : string :=
  match s with
  | EmptyString => EmptyString
  | String c r => String (lower_ascii c) (ToLower r)
  end.

(** [strings.EqualFold] on ASCII text: equality up to the case of the
    letters A-Z. *)
Definition EqualFold (s t : string) : bool :=
  String.eqb (ToLower s) (ToLower t).

(** ** Errors *)

(** The errors the driver builds with [fmt.Errorf], one constructor per
    call site with the values it formats, and the errors that come from
    outside ([autorest.DetailedError] of the SDK, errors of the helpers
    and of the manager). *)
Inductive GoError : Type :=
| DetailedError (StatusCode : Z) (Message : string)
| ExternalError (Message : string)
| ErrCouldNotFindVmss (name : string)
| ErrSizeIncreaseMustBePositive
| ErrUnderInitialization (name : string)
| ErrSizeIncreaseTooLarge (desired max : Z)
| ErrDoesntBelongToKnownScaleSet (node : string)
| ErrNotSameScaleSet (instance commonAsg : string)
| ErrMinSizeReached
| ErrBelongsToDifferentAsg (node asg : string).

Definition error := option GoError.

(** ** Data of the SDK and of the cloud provider interface *)

Module compute.

Record Sku := {
  SkuName : string;
  Tier : string;
  Capacity : Z
}.

Record VirtualMachineScaleSet := {
  Name : string;
  sku : Sku;
  Location : string
}.

Record VirtualMachineScaleSetVM := {
  ID : string;
  ProvisioningState : option string
}.

Definition ProvisioningStateDeleting : string := "Deleting".
Definition ProvisioningStateCreating : string := "Creating".

End compute.

Module cloudprovider.

Inductive InstanceState : Type :=
| InstanceRunning
| InstanceCreating
| InstanceDeleting.

Record InstanceStatus := { State : InstanceState }.

Record Instance := {
  Id : string;
  Status : option InstanceStatus
}.

End cloudprovider.

Module apiv1.

Record Node := {
  Name : string;
  ProviderID : string
}.

End apiv1.

Record azureRef := { ref_Name : string }.

(** A node group as the manager hands it out: the driver only ever calls
    [Id()] on it. *)
Record NodeGroup := { ng_Id : string }.

Definition Future := nat.

(** An [*http.Response] as far as the driver looks at it. *)
Record Response := { StatusCode : Z }.

(** ** Locks, backend calls and the world *)

Inductive Mutex : Type :=
| sizeMutex            (* scaleSet.sizeMutex *)
| instanceMutex        (* scaleSet.instanceMutex *)
| vmssSizeMutex        (* package level *)
| statusCacheMutex.    (* scaleSetStatusCache.mutex *)

Global Instance Mutex_eq_dec : EqDecision Mutex.
Proof. solve_decision. Defined.

Inductive BackendCall : Type :=
| VMSS_List (resourceGroup : string)
| VMSS_CreateOrUpdateAsync (resourceGroup name : string)
    (op : compute.VirtualMachineScaleSet)
| VMSS_WaitForCreateOrUpdate (future : Future)
| VMSS_DeleteInstancesAsync (resourceGroup vmss : string)
    (instanceIds : list string)
| VMSS_WaitForDeleteInstances (future : Future)
| VMSSVMs_List (resourceGroup name : string).

(** One backend call as it was issued: the call, the mutexes the calling
    code path held at that moment, and the time. *)
Record Event := {
  ev_call : BackendCall;
  ev_held : list Mutex;
  ev_time : Time
}.

Inductive Goroutine : Type :=
| go_waitForUpdateVMSSCapacity (future : Future)
| go_waitForDeleteInstances (future : Future) (requiredIds : list string).

Record ScaleSet := {
  Name : string;                              (* azureRef.Name *)
  minSize : Z;
  maxSize : Z;
  curSize : Z;
  lastSizeRefresh : Time;
  sizeRefreshPeriod : Duration;
  instanceCache : list cloudprovider.Instance;
  lastInstanceRefresh : Time
}.

Record StatusCache := {
  lastRefresh : Time;
  scaleSets : gmap string compute.VirtualMachineScaleSet
}.

Record World := {
  ss : ScaleSet;                      (* the receiver *)
  scaleSetStatusCache : StatusCache;  (* process-wide *)
  clock : Time;
  held : list Mutex;
  trace : list Event;                 (* backend calls, oldest first *)
  goroutines : list Goroutine         (* spawned with [go], oldest first *)
}.

(** The manager: configuration, the instance-to-group lookup and the SDK
    client.  The helpers of [azure_util.go] that the driver calls are
    taken along with it. *)
Record AzureManager := {
  ResourceGroup : string;
  VmssCacheTTL : Z;
  GetAsgForInstance : azureRef -> option NodeGroup * error;
  (* azClient *)
  List_ : list Event -> string ->
          list compute.VirtualMachineScaleSet * error;
  CreateOrUpdateAsync : list Event -> string -> string ->
          compute.VirtualMachineScaleSet -> Future * error;
  WaitForCreateOrUpdate : list Event -> Future -> option Response * error;
  DeleteInstancesAsync : list Event -> string -> string -> list string ->
          Future * error;
  WaitForDeleteInstances : list Event -> Future -> option Response * error;
  VMs_List : list Event -> string -> string ->
          list compute.VirtualMachineScaleSetVM * error;
  latency : list Event -> BackendCall -> Duration;
  (* azure_util.go *)
  isAzureRequestsThrottled : GoError -> bool;
  isSuccessHTTPResponse : option Response -> error -> bool * error;
  convertResourceGroupNameToLower : string -> string * error;
  getLastSegment : string -> string * error
}.

(** ** Field updates *)

Definition with_curSize (v : Z) (s : ScaleSet) : ScaleSet :=
  {| Name := Name s; minSize := minSize s; maxSize := maxSize s;
     curSize := v; lastSizeRefresh := lastSizeRefresh s;
     sizeRefreshPeriod := sizeRefreshPeriod s;
     instanceCache := instanceCache s;
     lastInstanceRefresh := lastInstanceRefresh s |}.

Definition with_lastSizeRefresh (v : Time) (s : ScaleSet) : ScaleSet :=
  {| Name := Name s; minSize := minSize s; maxSize := maxSize s;
     curSize := curSize s; lastSizeRefresh := v;
     sizeRefreshPeriod := sizeRefreshPeriod s;
     instanceCache := instanceCache s;
     lastInstanceRefresh := lastInstanceRefresh s |}.

Definition with_instanceCache (v : list cloudprovider.Instance)
    (s : ScaleSet) : ScaleSet :=
  {| Name := Name s; minSize := minSize s; maxSize := maxSize s;
     curSize := curSize s; lastSizeRefresh := lastSizeRefresh s;
     sizeRefreshPeriod := sizeRefreshPeriod s;
     instanceCache := v;
     lastInstanceRefresh := lastInstanceRefresh s |}.

Definition with_lastInstanceRefresh (v : Time) (s : ScaleSet) : ScaleSet :=
  {| Name := Name s; minSize := minSize s; maxSize := maxSize s;
     curSize := curSize s; lastSizeRefresh := lastSizeRefresh s;
     sizeRefreshPeriod := sizeRefreshPeriod s;
     instanceCache := instanceCache s;
     lastInstanceRefresh := v |}.

Definition with_Name (v : string) (s : ScaleSet) : ScaleSet :=
  {| Name := v; minSize := minSize s; maxSize := maxSize s;
     curSize := curSize s; lastSizeRefresh := lastSizeRefresh s;
     sizeRefreshPeriod := sizeRefreshPeriod s;
     instanceCache := instanceCache s;
     lastInstanceRefresh := lastInstanceRefresh s |}.

Definition with_maxSize (v : Z) (s : ScaleSet) : ScaleSet :=
  {| Name := Name s; minSize := minSize s; maxSize := v;
     curSize := curSize s; lastSizeRefresh := lastSizeRefresh s;
     sizeRefreshPeriod := sizeRefreshPeriod s;
     instanceCache := instanceCache s;
     lastInstanceRefresh := lastInstanceRefresh s |}.

Definition with_ss (f : ScaleSet -> ScaleSet) (w : World) : World :=
  {| ss := f (ss w); scaleSetStatusCache := scaleSetStatusCache w;
     clock := clock w; held := held w; trace := trace w;
     goroutines := goroutines w |}.

Definition with_statusCache (f : StatusCache -> StatusCache) (w : World)
    : World :=
  {| ss := ss w; scaleSetStatusCache := f (scaleSetStatusCache w);
     clock := clock w; held := held w; trace := trace w;
     goroutines := goroutines w |}.

Definition with_clock (v : Time) (w : World) : World :=
  {| ss := ss w; scaleSetStatusCache := scaleSetStatusCache w;
     clock := v; held := held w; trace := trace w;
     goroutines := goroutines w |}.

Definition with_held (v : list Mutex) (w : World) : World :=
  {| ss := ss w; scaleSetStatusCache := scaleSetStatusCache w;
     clock := clock w; held := v; trace := trace w;
     goroutines := goroutines w |}.

Definition with_trace (v : list Event) (w : World) : World :=
  {| ss := ss w; scaleSetStatusCache := scaleSetStatusCache w;
     clock := clock w; held := held w; trace := v;
     goroutines := goroutines w |}.

Definition with_goroutines (v : list Goroutine) (w : World) : World :=
  {| ss := ss w; scaleSetStatusCache := scaleSetStatusCache w;
     clock := clock w; held := held w; trace := trace w;
     goroutines := v |}.

(** Time passing between two calls of the driver. *)
Definition elapse (d : Duration) (w : World) : World :=
  with_clock (clock w + d) w.

(** ** The state monad of the driver *)

Definition M (A : Type) : Type := World -> A * World.

Global Instance M_ret : MRet M := fun A a w => (a, w).

Global Instance M_bind : MBind M := fun A B f m w =>
  match m w with (a, w') => f a w' end.

Definition gets {A : Type} (f : World -> A) : M A := fun w => (f w, w).

Definition modify (f : World -> World) : M unit := fun w => (tt, f w).

Definition time_Now : M Time := gets clock.

Fixpoint release (m : Mutex) (hs : list Mutex) : list Mutex :=
  match hs with
  | [] => []
  | h :: r => if decide (h = m) then r else h :: release m r
  end.

Definition Lock (m : Mutex) : M unit :=
  modify (fun w => with_held (m :: held w) w).

Definition Unlock (m : Mutex) : M unit :=
  modify (fun w => with_held (release m (held w)) w).

(** [m.Lock(); defer m.Unlock()] around the rest of a function body. *)
Definition locked {A : Type} (m : Mutex) (body : M A) : M A :=
  Lock m;; r ← body; Unlock m;; mret r.

Section Driver.

Variable az : AzureManager.

(** A call into the SDK: it is appended to the trace with the locks
    held, it takes [latency] of the clock, and the history before it
    is what the oracle answers from. *)
Definition backend (c : BackendCall) : M (list Event) := fun w =>
  let h := trace w in
  (h, with_clock (clock w + latency az h c)
        (with_trace (h ++ [ {| ev_call := c; ev_held := held w;
                               ev_time := clock w |} ]) w)).

Definition go (g : Goroutine) : M unit :=
  modify (fun w => with_goroutines (goroutines w ++ [g]) w).


Definition MinSize : M Z := gets (fun w => minSize (ss w)).
Definition MaxSize : M Z := gets (fun w => maxSize (ss w)).
Definition Id : M string := gets (fun w => Name (ss w)).

Definition invalidateInstanceCache : M unit :=
  Lock instanceMutex;;
  now ← time_Now;
  modify (with_ss (with_lastInstanceRefresh
            (Time_Add now (mul64 (-1) vmssInstancesRefreshPeriod))));;
  Unlock instanceMutex.

Definition invalidateStatusCacheWithLock : M unit :=
  Lock sizeMutex;;
  now ← time_Now;
  period ← gets (fun w => sizeRefreshPeriod (ss w));
  modify (with_ss (with_lastSizeRefresh
            (Time_Add now (mul64 (-1) period))));;
  Unlock sizeMutex;;
  Lock statusCacheMutex;;
  now ← time_Now;
  period ← gets (fun w => sizeRefreshPeriod (ss w));
  modify (with_statusCache (fun c =>
            {| lastRefresh := Time_Add now (mul64 (-1) period);
               scaleSets := scaleSets c |}));;
  Unlock statusCacheMutex.

Definition getAllVMSSInfo
    : M (list compute.VirtualMachineScaleSet * error) :=
  let resourceGroup := ResourceGroup az in
  h ← backend (VMSS_List resourceGroup);
  match List_ az h resourceGroup with
  | (_, Some err) => mret ([], Some err)
  | (setInfo, None) => mret (setInfo, None)
  end.

Definition newStatus (allVMSS : list compute.VirtualMachineScaleSet)
    : gmap string compute.VirtualMachineScaleSet :=
  foldl (fun m vmss => <[compute.Name vmss := vmss]> m) ∅ allVMSS.

Definition getVMSSInfo : M (compute.VirtualMachineScaleSet + GoError) :=
  locked statusCacheMutex (
    now ← time_Now;
    cache ← gets scaleSetStatusCache;
    period ← gets (fun w => sizeRefreshPeriod (ss w));
    name ← Id;
    match
      (if Time_After (Time_Add (lastRefresh cache) period) now
       then scaleSets cache !! name else None)
    with
    | Some status => mret (inl status)
    | None =>
        r ← getAllVMSSInfo;
        match r with
        | (_, Some err) => mret (inr err)
        | (allVMSS, None) =>
            now' ← time_Now;
            modify (with_statusCache (fun _ =>
              {| lastRefresh := now'; scaleSets := newStatus allVMSS |}));;
            match newStatus allVMSS !! name with
            | None => mret (inr (ErrCouldNotFindVmss name))
            | Some status => mret (inl status)
            end
        end
    end).

Definition getCurSize : M (Z * error) :=
  locked sizeMutex (
    now ← time_Now;
    last ← gets (fun w => lastSizeRefresh (ss w));
    period ← gets (fun w => sizeRefreshPeriod (ss w));
    if Time_After (Time_Add last period) now
    then cur ← gets (fun w => curSize (ss w)); mret (cur, None)
    else
      r ← getVMSSInfo;
      match r with
      | inr err =>
          if isAzureRequestsThrottled az err then
            now' ← time_Now;
            modify (with_ss (with_lastSizeRefresh now'));;
            cur ← gets (fun w => curSize (ss w));
            mret (cur, None)
          else mret (-1, Some err)
      | inl set =>
          Lock vmssSizeMutex;;
          let curSize' := compute.Capacity (compute.sku set) in
          Unlock vmssSizeMutex;;
          cur ← gets (fun w => curSize (ss w));
          (if cur =? curSize' then mret tt
           else invalidateInstanceCache);;
          modify (with_ss (with_curSize curSize'));;
          now' ← time_Now;
          modify (with_ss (with_lastSizeRefresh now'));;
          cur' ← gets (fun w => curSize (ss w));
          mret (cur', None)
      end).

Definition GetScaleSetSize : M (Z * error) := getCurSize.

Definition TargetSize : M (Z * error) :=
  r ← GetScaleSetSize; mret (fst r, snd r).

(** [isSuccess, err := isSuccessHTTPResponse(resp, err)] after a wait on
    a future; only logging follows. *)
Definition waitForDeleteInstances (future : Future)
    (requiredIds : list string) : M unit :=
  h ← backend (VMSS_WaitForDeleteInstances future);
  match WaitForDeleteInstances az h future with
  | (resp, err) =>
      match isSuccessHTTPResponse az resp err with
      | (true, _) => mret tt
      | (false, _) => mret tt
      end
  end.

Definition with_Capacity (size : Z) (v : compute.VirtualMachineScaleSet)
    : compute.VirtualMachineScaleSet :=
  {| compute.Name := compute.Name v;
     compute.sku :=
       {| compute.SkuName := compute.SkuName (compute.sku v);
          compute.Tier := compute.Tier (compute.sku v);
          compute.Capacity := size |};
     compute.Location := compute.Location v |}.

(** [vmssInfo.Sku] is a pointer: the assignment
    [vmssInfo.Sku.Capacity = &size] writes through it into the entry of
    [scaleSetStatusCache.scaleSets] that [getVMSSInfo] returned a copy
    of, the one under [scaleSet.Name]. *)
Definition updateVMSSCapacity (size : Z) : M error :=
  r ← getVMSSInfo;
  match r with
  | inr err => mret (Some err)
  | inl vmssInfo =>
      name ← Id;
      Lock vmssSizeMutex;;
      modify (with_statusCache (fun c =>
        {| lastRefresh := lastRefresh c;
           scaleSets := alter (with_Capacity size) name (scaleSets c) |}));;
      Unlock vmssSizeMutex;;
      let op := with_Capacity size vmssInfo in
      h ← backend (VMSS_CreateOrUpdateAsync (ResourceGroup az) name op);
      match CreateOrUpdateAsync az h (ResourceGroup az) name op with
      | (_, Some err) => mret (Some err)
      | (future, None) =>
          modify (with_ss (with_curSize size));;
          now ← time_Now;
          modify (with_ss (with_lastSizeRefresh now));;
          go (go_waitForUpdateVMSSCapacity future);;
          mret None
      end
  end.

(** The deferred closure runs last and sees the [err] left by
    [isSuccessHTTPResponse]. *)
Definition waitForUpdateVMSSCapacity (future : Future) : M unit :=
  h ← backend (VMSS_WaitForCreateOrUpdate future);
  match WaitForCreateOrUpdate az h future with
  | (resp, err) =>
      match isSuccessHTTPResponse az resp err with
      | (isSuccess, err') =>
          (if isSuccess then invalidateInstanceCache else mret tt);;
          match err' with
          | Some _ => invalidateStatusCacheWithLock
          | None => mret tt
          end
      end
  end.

Definition SetScaleSetSize (size : Z) : M error :=
  locked sizeMutex (updateVMSSCapacity size).

Definition IncreaseSize (delta : Z) : M error :=
  if delta <=? 0 then mret (Some ErrSizeIncreaseMustBePositive)
  else
    r ← GetScaleSetSize;
    match r with
    | (_, Some err) => mret (Some err)
    | (size, None) =>
        if size =? -1 then
          name ← Id; mret (Some (ErrUnderInitialization name))
        else
          max ← MaxSize;
          if max <? add64 size delta then
            mret (Some (ErrSizeIncreaseTooLarge (add64 size delta) max))
          else SetScaleSetSize (add64 size delta)
    end.

Definition GetScaleSetVms
    : M (list compute.VirtualMachineScaleSetVM * error) :=
  name ← Id;
  h ← backend (VMSSVMs_List (ResourceGroup az) name);
  match VMs_List az h (ResourceGroup az) name with
  | (_, Some err) => mret ([], Some err)
  | (vmList, None) => mret (vmList, None)
  end.

Definition DecreaseTargetSize (delta : Z) : M error :=
  invalidateInstanceCache;;
  r ← GetScaleSetSize;
  mret (snd r).

Definition Belongs (node : apiv1.Node) : M (bool * error) :=
  let ref := {| ref_Name := apiv1.ProviderID node |} in
  match GetAsgForInstance az ref with
  | (_, Some err) => mret (false, Some err)
  | (None, None) =>
      mret (false, Some (ErrDoesntBelongToKnownScaleSet (apiv1.Name node)))
  | (Some targetAsg, None) =>
      id ← Id;
      if negb (EqualFold (ng_Id targetAsg) id) then mret (false, None)
      else mret (true, None)
  end.

Definition instanceStatusFromVM (vm : compute.VirtualMachineScaleSetVM)
    : option cloudprovider.InstanceStatus :=
  match compute.ProvisioningState vm with
  | None => None
  | Some state =>
      Some {| cloudprovider.State :=
        if String.eqb state compute.ProvisioningStateDeleting
        then cloudprovider.InstanceDeleting
        else if String.eqb state compute.ProvisioningStateCreating
        then cloudprovider.InstanceCreating
        else cloudprovider.InstanceRunning |}
  end.

Fixpoint buildInstanceCache (vms : list compute.VirtualMachineScaleSetVM)
    : list cloudprovider.Instance :=
  match vms with
  | [] => []
  | vm :: rest =>
      if (String.length (compute.ID vm) =? 0)%nat
      then buildInstanceCache rest
      else
        match convertResourceGroupNameToLower az (compute.ID vm) with
        | (_, Some _) => buildInstanceCache rest
        | (resourceID, None) =>
            {| cloudprovider.Id := "azure://" +:+ resourceID;
               cloudprovider.Status := instanceStatusFromVM vm |}
            :: buildInstanceCache rest
        end
  end.

Definition zeroInstance : cloudprovider.Instance :=
  {| cloudprovider.Id := ""; cloudprovider.Status := None |}.

Fixpoint findInstance (providerID : string)
    (cache : list cloudprovider.Instance)
    : cloudprovider.Instance * bool :=
  match cache with
  | [] => (zeroInstance, false)
  | instance :: rest =>
      if String.eqb (cloudprovider.Id instance) providerID
      then (instance, true)
      else findInstance providerID rest
  end.

Definition getInstanceByProviderID (providerID : string)
    : M (cloudprovider.Instance * bool) :=
  locked instanceMutex (
    cache ← gets (fun w => instanceCache (ss w));
    mret (findInstance providerID cache)).

Definition isDeleting (cpi : cloudprovider.Instance) : bool :=
  match cloudprovider.Status cpi with
  | Some {| cloudprovider.State := cloudprovider.InstanceDeleting |} => true
  | _ => false
  end.

(** How a Go function body is left: by a [return], or by the run-time
    panic of a method call on a nil group. *)
Inductive Outcome : Type :=
| Returns (err : error)
| Panics.

(** How one pass over the loop of [DeleteInstances] ends. *)
Inductive LoopExit : Type :=
| Done (instanceIDs : list string)
| Exit (o : Outcome).

(** The [for _, instance := range instances] loop of [DeleteInstances];
    [instanceIDs] is the slice built so far. *)
Fixpoint deleteInstancesLoop (commonAsg : option NodeGroup)
    (instances : list azureRef) (instanceIDs : list string)
    : M LoopExit :=
  match instances with
  | [] => mret (Done instanceIDs)
  | instance :: rest =>
      match GetAsgForInstance az instance with
      | (_, Some err) => mret (Exit (Returns (Some err)))
      | (None, None) => mret (Exit Panics)
      | (Some asg, None) =>
          match commonAsg with
          | None => mret (Exit Panics)
          | Some common =>
              if negb (EqualFold (ng_Id asg) (ng_Id common)) then
                mret (Exit (Returns (Some
                  (ErrNotSameScaleSet (ref_Name instance) (ng_Id common)))))
              else
                r ← getInstanceByProviderID (ref_Name instance);
                if snd r && isDeleting (fst r) then
                  deleteInstancesLoop commonAsg rest instanceIDs
                else
                  match getLastSegment az (ref_Name instance) with
                  | (_, Some err) => mret (Exit (Returns (Some err)))
                  | (instanceID, None) =>
                      deleteInstancesLoop commonAsg rest
                        (instanceIDs ++ [instanceID])
                  end
          end
      end
  end.

Definition DeleteInstances (instances : list azureRef) : M Outcome :=
  match instances with
  | [] => mret (Returns None)
  | first :: _ =>
      match GetAsgForInstance az first with
      | (_, Some err) => mret (Returns (Some err))
      | (commonAsg, None) =>
          l ← deleteInstancesLoop commonAsg instances [];
          match l with
          | Exit o => mret o
          | Done [] => mret (Returns None)
          | Done instanceIDs =>
              match commonAsg with
              | None => mret Panics
              | Some common =>
                  Lock instanceMutex;;
                  h ← backend (VMSS_DeleteInstancesAsync (ResourceGroup az)
                                 (ng_Id common) instanceIDs);
                  Unlock instanceMutex;;
                  match DeleteInstancesAsync az h (ResourceGroup az)
                          (ng_Id common) instanceIDs with
                  | (_, Some err) => mret (Returns (Some err))
                  | (future, None) =>
                      Lock sizeMutex;;
                      modify (with_ss (fun s =>
                        with_curSize
                          (sub64 (curSize s)
                                 (Z.of_nat (length instanceIDs))) s));;
                      Unlock sizeMutex;;
                      go (go_waitForDeleteInstances future instanceIDs);;
                      mret (Returns None)
                  end
              end
          end
      end
  end.

(** The [for _, node := range nodes] loop of [DeleteNodes]; [refs] is
    the slice built so far. *)
Fixpoint deleteNodesLoop (nodes : list apiv1.Node) (refs : list azureRef)
    : M (list azureRef + GoError) :=
  match nodes with
  | [] => mret (inl refs)
  | node :: rest =>
      r ← Belongs node;
      match r with
      | (_, Some err) => mret (inr err)
      | (false, None) =>
          id ← Id;
          mret (inr (ErrBelongsToDifferentAsg (apiv1.Name node) id))
      | (true, None) =>
          deleteNodesLoop rest
            (refs ++ [ {| ref_Name := apiv1.ProviderID node |} ])
      end
  end.

Definition DeleteNodes (nodes : list apiv1.Node) : M Outcome :=
  r ← GetScaleSetSize;
  match r with
  | (_, Some err) => mret (Returns (Some err))
  | (size, None) =>
      min ← MinSize;
      if size <=? min then mret (Returns (Some ErrMinSizeReached))
      else
        l ← deleteNodesLoop nodes [];
        match l with
        | inr err => mret (Returns (Some err))
        | inl refs => DeleteInstances refs
        end
  end.

Definition Nodes : M (list cloudprovider.Instance * error) :=
  r ← getCurSize;
  match r with
  | (_, Some err) => mret ([], Some err)
  | (curSize, None) =>
      locked instanceMutex (
        cache ← gets (fun w => instanceCache (ss w));
        last ← gets (fun w => lastInstanceRefresh (ss w));
        now ← time_Now;
        if (Z.of_nat (length cache) =? curSize)
           && Time_After (Time_Add last vmssInstancesRefreshPeriod) now
        then mret (cache, None)
        else
          v ← GetScaleSetVms;
          match v with
          | (_, Some err) =>
              if isAzureRequestsThrottled az err then
                now' ← time_Now;
                modify (with_ss (with_lastInstanceRefresh now'));;
                cache' ← gets (fun w => instanceCache (ss w));
                mret (cache', None)
              else mret ([], Some err)
          | (vms, None) =>
              modify (with_ss (with_instanceCache (buildInstanceCache vms)));;
              now' ← time_Now;
              modify (with_ss (with_lastInstanceRefresh now'));;
              cache' ← gets (fun w => instanceCache (ss w));
              mret (cache', None)
          end)
  end.

(** A spawned goroutine, run to completion. *)
Definition run (g : Goroutine) : M unit :=
  match g with
  | go_waitForUpdateVMSSCapacity future => waitForUpdateVMSSCapacity future
  | go_waitForDeleteInstances future ids => waitForDeleteInstances future ids
  end.

End Driver.

(** ** A concrete manager and concrete worlds

    Two groups, [vmss-a] and [vmss-b], in one resource group.  The SDK
    oracles answer with fixed values; the helpers of [azure_util.go] are
    given simple stand-ins.  These are the inputs the general theorems
    below are run on. *)
Module Scenario.

Definition groupA : NodeGroup := {| ng_Id := "vmss-a" |}.
Definition groupB : NodeGroup := {| ng_Id := "vmss-b" |}.

Definition a0 : azureRef := {| ref_Name := "azure://vmss-a/0" |}.
Definition a1 : azureRef := {| ref_Name := "azure://vmss-a/1" |}.
Definition b0 : azureRef := {| ref_Name := "azure://vmss-b/0" |}.
Definition unknown : azureRef := {| ref_Name := "azure://other/7" |}.

Definition nodeA0 : apiv1.Node :=
  {| apiv1.Name := "node-a0"; apiv1.ProviderID := "azure://vmss-a/0" |}.
Definition nodeB0 : apiv1.Node :=
  {| apiv1.Name := "node-b0"; apiv1.ProviderID := "azure://vmss-b/0" |}.

Definition groupOf (r : azureRef) : option NodeGroup * error :=
  if String.eqb (ref_Name r) "azure://vmss-a/0" then (Some groupA, None)
  else if String.eqb (ref_Name r) "azure://vmss-a/1" then (Some groupA, None)
  else if String.eqb (ref_Name r) "azure://vmss-b/0" then (Some groupB, None)
  else (None, None).

Definition vmss (name : string) (capacity : Z)
    : compute.VirtualMachineScaleSet :=
  {| compute.Name := name;
     compute.sku := {| compute.SkuName := "Standard_D2_v2";
                       compute.Tier := "Standard";
                       compute.Capacity := capacity |};
     compute.Location := "westeurope" |}.

Definition throttled : GoError := DetailedError 429 "too many requests".

Definition is429 (e : GoError) : bool :=
  match e with
  | DetailedError code _ => code =? 429
  | _ => false
  end.

Definition successOf (resp : option Response) (err : error)
    : bool * error :=
  match err with
  | Some e => (false, Some e)
  | None =>
      match resp with
      | Some r =>
          if (199 <? StatusCode r) && (StatusCode r <? 300)
          then (true, None)
          else (false, Some (ExternalError "failed with HTTP status code"))
      | None => (false, Some (ExternalError "failed with unexpected error"))
      end
  end.

Fixpoint lastSegmentFrom (s acc : string) : string :=
  match s with
  | EmptyString => acc
  | String c r =>
      if Ascii.eqb c "/"%char then lastSegmentFrom r EmptyString
      else lastSegmentFrom r (acc +:+ String c EmptyString)
  end.

Definition lastSegment (id : string) : string * error :=
  let name := lastSegmentFrom id EmptyString in
  if (String.length name =? 0)%nat
  then (EmptyString, Some (ExternalError "identifier '/' not found"))
  else (name, None).

Definition manager
    (listAnswer : list compute.VirtualMachineScaleSet * error)
    (waitAnswer : option Response * error) : AzureManager :=
  {| ResourceGroup := "rg";
     VmssCacheTTL := 0;
     GetAsgForInstance := groupOf;
     List_ := fun _ _ => listAnswer;
     CreateOrUpdateAsync := fun h _ _ _ => (length h, None);
     WaitForCreateOrUpdate := fun _ _ => waitAnswer;
     DeleteInstancesAsync := fun h _ _ _ => (length h, None);
     WaitForDeleteInstances := fun _ _ => waitAnswer;
     VMs_List := fun _ _ _ => ([], None);
     latency := fun _ _ => Second;
     isAzureRequestsThrottled := is429;
     isSuccessHTTPResponse := successOf;
     convertResourceGroupNameToLower := fun id => (ToLower id, None);
     getLastSegment := lastSegment |}.

Definition listed : list compute.VirtualMachineScaleSet * error :=
  ([vmss "vmss-a" 2; vmss "vmss-b" 1], None).

Definition succeeded : option Response * error :=
  (Some {| StatusCode := 200 |}, None).

Definition failed : option Response * error :=
  (None, Some (DetailedError 409 "conflict")).

(** The backend answers every call. *)
Definition healthy : AzureManager := manager listed succeeded.

(** The list call is throttled. *)
Definition limited : AzureManager :=
  manager ([], Some throttled) succeeded.

(** The awaited mutation fails. *)
Definition failing : AzureManager := manager listed failed.

Definition running : option cloudprovider.InstanceStatus :=
  Some {| cloudprovider.State := cloudprovider.InstanceRunning |}.
Definition deleting : option cloudprovider.InstanceStatus :=
  Some {| cloudprovider.State := cloudprovider.InstanceDeleting |}.

(** Group [vmss-a] (min 1, max 3) observed at size 2 five seconds
    ago; instance 1 is already being deleted. *)
Definition steady : World :=
  {| ss :=
       {| Name := "vmss-a"; minSize := 1; maxSize := 3;
          curSize := 2;
          lastSizeRefresh := 1000 * Second;
          sizeRefreshPeriod := defaultVmssSizeRefreshPeriod;
          instanceCache :=
            [ {| cloudprovider.Id := "azure://vmss-a/0";
                 cloudprovider.Status := running |};
              {| cloudprovider.Id := "azure://vmss-a/1";
                 cloudprovider.Status := deleting |} ];
          lastInstanceRefresh := 1000 * Second |};
     scaleSetStatusCache :=
       {| lastRefresh := 1000 * Second;
          scaleSets := newStatus (fst listed) |};
     clock := 1005 * Second;
     held := [];
     trace := [];
     goroutines := [] |}.

(** The same group once the refresh period has gone by. *)
Definition stale : World := elapse (20 * Second) steady.

(** The driver of group [vmss-b] holding the same caches. *)
Definition other : World := with_ss (with_Name "vmss-b") steady.


End Scenario.

(** ** Observations on worlds and traces *)

Definition is_list_call (e : Event) : bool :=
  match ev_call e with VMSS_List _ => true | _ => false end.

Definition is_capacity_call (e : Event) : bool :=
  match ev_call e with VMSS_CreateOrUpdateAsync _ _ _ => true | _ => false end.

Definition is_delete_call (e : Event) : bool :=
  match ev_call e with VMSS_DeleteInstancesAsync _ _ _ => true | _ => false end.

(** The three freshness tests of the driver, as [getCurSize], [Nodes] and
    [getVMSSInfo] make them. *)
Definition sizeCacheFresh (w : World) : bool :=
  Time_After (Time_Add (lastSizeRefresh (ss w)) (sizeRefreshPeriod (ss w)))
             (clock w).

Definition instanceCacheFresh (w : World) : bool :=
  Time_After (Time_Add (lastInstanceRefresh (ss w)) vmssInstancesRefreshPeriod)
             (clock w).

Definition groupCacheFresh (w : World) : bool :=
  Time_After (Time_Add (lastRefresh (scaleSetStatusCache w))
                       (sizeRefreshPeriod (ss w)))
             (clock w).

(** The instance is in the cache of the receiver in state [Deleting]:
    the test under which [DeleteInstances] skips it. *)
Definition skipped (w : World) (instance : azureRef) : bool :=
  let r := findInstance (ref_Name instance) (instanceCache (ss w)) in
  snd r && isDeleting (fst r).

(** The instances [DeleteInstances] does not skip. *)
Definition eligible (w : World) (instances : list azureRef) : list azureRef :=
  filter (fun i => skipped w i = false) instances.

(** The instance resolves to a group whose id is that of [common] up to
    case: the test that [DeleteInstances] makes on every instance. *)
Definition sameGroup (az : AzureManager) (common : NodeGroup)
    (instance : azureRef) : Prop :=
  exists asg, GetAsgForInstance az instance = (Some asg, None) /\
              EqualFold (ng_Id asg) (ng_Id common) = true.

(** The instance id sent to the backend for an instance. *)
Definition segment (az : AzureManager) (instance : azureRef) : string :=
  fst (getLastSegment az (ref_Name instance)).

(** The node resolves to a group whose id is that of the receiver up to
    case: [Belongs] answers [true, nil]. *)
Definition belongs (az : AzureManager) (w : World) (node : apiv1.Node)
    : Prop :=
  exists asg,
    GetAsgForInstance az {| ref_Name := apiv1.ProviderID node |}
      = (Some asg, None) /\
    EqualFold (ng_Id asg) (Name (ss w)) = true.

(** The delete call [DeleteInstances] makes for a group and an id list. *)
Definition deleteCall (az : AzureManager) (common : NodeGroup)
    (ids : list string) : BackendCall :=
  VMSS_DeleteInstancesAsync (ResourceGroup az) (ng_Id common) ids.

Definition refOf (node : apiv1.Node) : azureRef :=
  {| ref_Name := apiv1.ProviderID node |}.

(** ** The rest of the file *)

(** [init]: the loop that rebuilds [autorest.StatusCodesForRetry]
    without [http.StatusTooManyRequests]; [statusCodesForRetry] is the
    slice built so far. *)
Definition StatusTooManyRequests : Z := 429.

Fixpoint init_loop (codes statusCodesForRetry : list Z) : list Z :=
  match codes with
  | [] => statusCodesForRetry
  | code :: rest =>
      if negb (code =? StatusTooManyRequests)
      then init_loop rest (statusCodesForRetry ++ [code])
      else init_loop rest statusCodesForRetry
  end.

Definition init (StatusCodesForRetry : list Z) : list Z :=
  init_loop StatusCodesForRetry [].

(** The world right after the list call of [getAllVMSSInfo], made from
    inside [getVMSSInfo]. *)
Definition afterList (az : AzureManager) (w : World) : World :=
  with_clock (clock w + latency az (trace w) (VMSS_List (ResourceGroup az)))
    (with_trace
       (trace w ++ [ {| ev_call := VMSS_List (ResourceGroup az);
                        ev_held := statusCacheMutex :: held w;
                        ev_time := clock w |} ]) w).

(** The world right after the list call of [GetScaleSetVms], made from
    inside [Nodes]. *)
Definition afterVMsList (az : AzureManager) (w : World) : World :=
  with_clock
    (clock w + latency az (trace w)
                 (VMSSVMs_List (ResourceGroup az) (Name (ss w))))
    (with_trace
       (trace w ++ [ {| ev_call := VMSSVMs_List (ResourceGroup az)
                                     (Name (ss w));
                        ev_held := instanceMutex :: held w;
                        ev_time := clock w |} ]) w).

(** No backend call makes the clock go back. *)
Definition monotoneClock (az : AzureManager) : Prop :=
  forall h c, 0 <= latency az h c.

Definition is_vms_list_call (e : Event) : bool :=
  match ev_call e with VMSSVMs_List _ _ => true | _ => false end.

(** What [Nodes] tests before it answers from the instance cache. *)
Definition instanceCacheValid (size : Z) (w : World) : bool :=
  (Z.of_nat (length (instanceCache (ss w))) =? size) && instanceCacheFresh w.

(** A call of the kind [kind] issued while exactly [locks] were held. *)
Definition issued_under (kind : Event -> bool) (locks : list Mutex)
    (e : Event) : Prop :=
  kind e = true /\ ev_held e = locks.

(** Further concrete inputs. *)
Module Cases.

(** The list call fails with an error that is not a throttling error. *)
Definition conflicting : AzureManager :=
  Scenario.manager ([], Some (DetailedError 409 "conflict"))
    Scenario.succeeded.

(** The backend refuses every mutation. *)
Definition rejecting : AzureManager :=
  {| ResourceGroup := "rg";
     VmssCacheTTL := 0;
     GetAsgForInstance := Scenario.groupOf;
     List_ := fun _ _ => Scenario.listed;
     CreateOrUpdateAsync := fun _ _ _ _ =>
       (0%nat, Some (DetailedError 400 "bad request"));
     WaitForCreateOrUpdate := fun _ _ => Scenario.succeeded;
     DeleteInstancesAsync := fun _ _ _ _ =>
       (0%nat, Some (DetailedError 400 "bad request"));
     WaitForDeleteInstances := fun _ _ => Scenario.succeeded;
     VMs_List := fun _ _ _ => ([], None);
     latency := fun _ _ => Second;
     isAzureRequestsThrottled := Scenario.is429;
     isSuccessHTTPResponse := Scenario.successOf;
     convertResourceGroupNameToLower := fun id => (ToLower id, None);
     getLastSegment := Scenario.lastSegment |}.

(** The VM list call is throttled. *)
Definition vmsThrottled : AzureManager :=
  {| ResourceGroup := "rg";
     VmssCacheTTL := 0;
     GetAsgForInstance := Scenario.groupOf;
     List_ := fun _ _ => Scenario.listed;
     CreateOrUpdateAsync := fun h _ _ _ => (length h, None);
     WaitForCreateOrUpdate := fun _ _ => Scenario.succeeded;
     DeleteInstancesAsync := fun h _ _ _ => (length h, None);
     WaitForDeleteInstances := fun _ _ => Scenario.succeeded;
     VMs_List := fun _ _ _ => ([], Some Scenario.throttled);
     latency := fun _ _ => Second;
     isAzureRequestsThrottled := Scenario.is429;
     isSuccessHTTPResponse := Scenario.successOf;
     convertResourceGroupNameToLower := fun id => (ToLower id, None);
     getLastSegment := Scenario.lastSegment |}.

(** The backend lists [vmss-a] at capacity 4. *)
Definition grown : AzureManager :=
  Scenario.manager ([Scenario.vmss "vmss-a" 4], None) Scenario.succeeded.



End Cases.

(** * Proofs *)

Ltac unM :=
  unfold locked, Lock, Unlock, time_Now, gets, modify, Id, MinSize, MaxSize,
    go, backend, mbind, mret, M_bind, M_ret in *.

(** Two worlds built from the same fields are equal. *)
Ltac world_eq :=
  repeat match goal with
         | w : World |- _ => destruct w as [[] [] ? ? ? ?]
         end;
  reflexivity.

Lemma wrap64_id (z : Z) : in_int64 z -> wrap64 z = z.
Proof.
  unfold in_int64, int64_min, int64_max, wrap64. intros H.
  rewrite Z.mod_small; lia.
Qed.

Lemma neg_period_le (p : Duration) : in_int64 p -> mul64 (-1) p + p <= 0.
Proof.
  intros H. unfold mul64.
  destruct (Z.eq_dec p int64_min) as [->|Hne].
  - vm_compute. discriminate.
  - rewrite wrap64_id; [lia|].
    unfold in_int64, int64_min, int64_max in *. lia.
Qed.

Section Frames.

Variable az : AzureManager.

(** [getVMSSInfo] touches the group cache, the clock and the trace
    only; every call it makes is a list call made under the group
    cache lock. *)
Lemma getVMSSInfo_frame w r w1 :
  getVMSSInfo az w = (r, w1) ->
  ss w1 = ss w /\ held w1 = held w /\ goroutines w1 = goroutines w /\
  exists evs, trace w1 = trace w ++ evs /\
    Forall (fun e => ev_call e = VMSS_List (ResourceGroup az) /\
                     ev_held e = statusCacheMutex :: held w) evs.
Proof.
  unfold getVMSSInfo, getAllVMSSInfo. unM. simpl. intros H.
  repeat (case_match; simplify_eq/=);
    repeat split; eauto;
    first [ by exists []; rewrite app_nil_r
          | eexists; split; [reflexivity|]; by repeat constructor ].
Qed.

Lemma getCurSize_fresh w :
  sizeCacheFresh w = true ->
  getCurSize az w = ((curSize (ss w), None), w).
Proof.
  unfold sizeCacheFresh, getCurSize. intros H. unM. simpl.
  rewrite H. simpl. world_eq.
Qed.

Lemma getCurSize_stale w :
  sizeCacheFresh w = false ->
  getCurSize az w =
    match getVMSSInfo az (with_held (sizeMutex :: held w) w) with
    | (inr err, w1) =>
        if isAzureRequestsThrottled az err
        then ((curSize (ss w1), None),
              with_held (release sizeMutex (held w1))
                (with_ss (with_lastSizeRefresh (clock w1)) w1))
        else ((-1, Some err), with_held (release sizeMutex (held w1)) w1)
    | (inl set, w1) =>
        let c := compute.Capacity (compute.sku set) in
        let w2 :=
          if curSize (ss w1) =? c then w1
          else with_ss (with_lastInstanceRefresh
                 (clock w1 - vmssInstancesRefreshPeriod)) w1 in
        ((c, None),
         with_held (release sizeMutex (held w1))
           (with_ss (with_lastSizeRefresh (clock w1))
              (with_ss (with_curSize c) w2)))
    end.
Proof.
  unfold sizeCacheFresh, getCurSize. intros H. unM. simpl.
  rewrite H.
  destruct (getVMSSInfo az _) as [[set|err] w1] eqn:E; simpl.
  - destruct (curSize (ss w1) =? _) eqn:E2; simpl.
    + clear E. world_eq.
    + clear E. unfold invalidateInstanceCache. unM. simpl. world_eq.
  - destruct (isAzureRequestsThrottled az err); simpl; reflexivity.
Qed.

(** What [getCurSize] leaves alone, and what it may call. *)
Lemma getCurSize_frame w r w1 :
  getCurSize az w = (r, w1) ->
  Name (ss w1) = Name (ss w) /\ minSize (ss w1) = minSize (ss w) /\
  maxSize (ss w1) = maxSize (ss w) /\
  sizeRefreshPeriod (ss w1) = sizeRefreshPeriod (ss w) /\
  instanceCache (ss w1) = instanceCache (ss w) /\
  held w1 = held w /\ goroutines w1 = goroutines w /\
  (snd r = None -> curSize (ss w1) = fst r) /\
  exists evs, trace w1 = trace w ++ evs /\
    Forall (fun e => is_list_call e = true) evs.
Proof.
  destruct (sizeCacheFresh w) eqn:F.
  - rewrite getCurSize_fresh by done. intros [= <- <-].
    repeat split; try done. exists []. by rewrite app_nil_r.
  - rewrite getCurSize_stale by done.
    destruct (getVMSSInfo az _) as [res w'] eqn:E.
    apply getVMSSInfo_frame in E as (Hs & Hh & Hg & evs & Ht & Hev).
    assert (Forall (fun e => is_list_call e = true) evs) as Hl.
    { eapply Forall_impl; [exact Hev|].
      intros e [He _]. unfold is_list_call. by rewrite He. }
    simpl in *.
    destruct res as [set|err]; [|destruct (isAzureRequestsThrottled az err)];
      intros [= <- <-]; rewrite ?Hh; simpl;
      repeat case_match; simpl; rewrite ?Hs, ?Hg;
      repeat split; try done; eauto.
Qed.

End Frames.

Lemma sizeCacheFresh_true (w : World) :
  sizeCacheFresh w = true <->
  clock w - lastSizeRefresh (ss w) < sizeRefreshPeriod (ss w).
Proof.
  unfold sizeCacheFresh, Time_After, Time_Add. rewrite Z.ltb_lt. lia.
Qed.

Lemma sizeCacheFresh_false (w : World) :
  sizeCacheFresh w = false <->
  sizeRefreshPeriod (ss w) <= clock w - lastSizeRefresh (ss w).
Proof.
  unfold sizeCacheFresh, Time_After, Time_Add. rewrite Z.ltb_ge. lia.
Qed.

(** ** Size refresh *)

(** C3.  The steps of the size refresh [getCurSize] (which [TargetSize]
    returns unchanged).
    - Fresh: if [now - lastSizeRefresh < sizeRefreshPeriod] the call
      returns [curSize] and the world is exactly as before: no backend
      call, nothing written.
    - Throttled: if the period has gone by and the fetch through
      [getVMSSInfo] fails with a throttling error, the call returns the
      cached [curSize] without an error and sets [lastSizeRefresh] to the
      current time; any further call less than [sizeRefreshPeriod] later
      returns the same value and leaves the world, its trace included,
      untouched.
    - Success: if the fetch succeeds, the call returns the capacity of
      the descriptor, stores it in [curSize] and the current time in
      [lastSizeRefresh]; when the capacity differs from the old [curSize]
      the instance cache is out of date from then on, and when it is the
      same [lastInstanceRefresh] is kept.  The instances themselves are
      never touched. *)
Theorem getCurSize_refresh_steps (az : AzureManager) (w : World) :
  (clock w - lastSizeRefresh (ss w) < sizeRefreshPeriod (ss w) ->
   getCurSize az w = ((curSize (ss w), None), w) /\
   TargetSize az w = ((curSize (ss w), None), w))
  /\
  (forall err w1,
     sizeRefreshPeriod (ss w) <= clock w - lastSizeRefresh (ss w) ->
     getVMSSInfo az (with_held (sizeMutex :: held w) w) = (inr err, w1) ->
     isAzureRequestsThrottled az err = true ->
     exists w2,
       getCurSize az w = ((curSize (ss w), None), w2) /\
       curSize (ss w2) = curSize (ss w) /\
       lastSizeRefresh (ss w2) = clock w2 /\
       trace w2 = trace w1 /\
       forall d, 0 <= d < sizeRefreshPeriod (ss w) ->
         getCurSize az (elapse d w2) = ((curSize (ss w), None), elapse d w2))
  /\
  (forall set w1,
     sizeRefreshPeriod (ss w) <= clock w - lastSizeRefresh (ss w) ->
     getVMSSInfo az (with_held (sizeMutex :: held w) w) = (inl set, w1) ->
     let capacity := compute.Capacity (compute.sku set) in
     exists w2,
       getCurSize az w = ((capacity, None), w2) /\
       curSize (ss w2) = capacity /\
       lastSizeRefresh (ss w2) = clock w2 /\
       trace w2 = trace w1 /\
       instanceCache (ss w2) = instanceCache (ss w) /\
       (capacity <> curSize (ss w) ->
        forall d, 0 <= d -> instanceCacheFresh (elapse d w2) = false) /\
       (capacity = curSize (ss w) ->
        lastInstanceRefresh (ss w2) = lastInstanceRefresh (ss w))).
Proof.
  split; [|split].
  - intros H%sizeCacheFresh_true.
    pose proof (getCurSize_fresh az w H) as E. split; [exact E|].
    unfold TargetSize, GetScaleSetSize. unM. by rewrite E.
  - intros err w1 H%sizeCacheFresh_false E T.
    rewrite (getCurSize_stale az w H), E, T.
    apply getVMSSInfo_frame in E as (Hs & Hh & _).
    eexists. split; [by rewrite Hs|]. simpl.
    repeat split; try by rewrite ?Hs.
    intros d Hd. rewrite getCurSize_fresh.
    + unfold elapse. simpl. by rewrite Hs.
    + apply sizeCacheFresh_true. unfold elapse. simpl. rewrite Hs. simpl. lia.
  - intros set w1 H%sizeCacheFresh_false E capacity.
    rewrite (getCurSize_stale az w H), E.
    apply getVMSSInfo_frame in E as (Hs & Hh & _).
    eexists. split; [reflexivity|]. rewrite Hs. fold capacity.
    simpl.
    destruct (curSize (ss w) =? capacity) eqn:Heq; simpl;
      rewrite ?Hs; repeat split; try done.
    + apply Z.eqb_eq in Heq. intros Hne. by destruct Hne.
    + intros _ d Hd. unfold instanceCacheFresh, elapse. simpl.
      unfold Time_After, Time_Add. apply Z.ltb_ge. lia.
    + apply Z.eqb_neq in Heq. intros Hne. by destruct Heq.
Qed.

(** The three steps on the concrete group: a fresh read, a throttled
    refresh and a refresh that sees the capacity change from 2 to 4. *)
Lemma getCurSize_refresh_steps_witness :
  getCurSize Scenario.healthy Scenario.steady = ((2, None), Scenario.steady)
  /\
  (exists w2,
     getCurSize Scenario.limited Scenario.stale = ((2, None), w2) /\
     lastSizeRefresh (ss w2) = clock w2 /\
     trace w2 = [ {| ev_call := VMSS_List "rg";
                     ev_held := [statusCacheMutex; sizeMutex];
                     ev_time := 1025 * Second |} ] /\
     getCurSize Scenario.limited (elapse (14 * Second) w2)
       = ((2, None), elapse (14 * Second) w2))
  /\
  (exists w2,
     getCurSize (Scenario.manager ([Scenario.vmss "vmss-a" 4], None)
                   Scenario.succeeded) Scenario.stale = ((4, None), w2) /\
     curSize (ss w2) = 4 /\
     instanceCacheFresh w2 = false).
Proof.
  split; [|split].
  - apply (getCurSize_refresh_steps Scenario.healthy Scenario.steady).
    vm_compute. reflexivity.
  - destruct (getCurSize_refresh_steps Scenario.limited Scenario.stale)
      as (_ & H & _).
    edestruct H as (w2 & E & _ & L & T & F).
    + vm_compute. discriminate.
    + vm_compute. reflexivity.
    + reflexivity.
    + exists w2. repeat split; try assumption.
      apply (F (14 * Second)). vm_compute. split; [discriminate|reflexivity].
  - destruct (getCurSize_refresh_steps
                (Scenario.manager ([Scenario.vmss "vmss-a" 4], None)
                   Scenario.succeeded) Scenario.stale)
      as (_ & _ & H).
    edestruct H as (w2 & E & C & _ & _ & _ & I & _).
    + vm_compute. discriminate.
    + vm_compute. reflexivity.
    + exists w2. repeat split; try assumption.
      specialize (I ltac:(vm_compute; discriminate) 0 ltac:(lia)).
      revert I. unfold elapse, with_clock, instanceCacheFresh. simpl.
      by rewrite Z.add_0_r.
Defined.

(** ** Setting the size *)

Section Capacity.

Variable az : AzureManager.

Lemma getVMSSInfo_maxSize max w :
  getVMSSInfo az (with_ss (with_maxSize max) w) =
  (fst (getVMSSInfo az w),
   with_ss (with_maxSize max) (snd (getVMSSInfo az w))).
Proof.
  unfold getVMSSInfo, getAllVMSSInfo. unM. simpl.
  repeat (case_match; simplify_eq/=); world_eq.
Qed.

(** [updateVMSSCapacity], step by step after the descriptor fetch. *)
Lemma updateVMSSCapacity_spec size w :
  updateVMSSCapacity az size w =
  match getVMSSInfo az w with
  | (inr err, w1) => (Some err, w1)
  | (inl vmssInfo, w1) =>
      let name := Name (ss w1) in
      let op := with_Capacity size vmssInfo in
      let w2 :=
        with_clock (clock w1 + latency az (trace w1)
                      (VMSS_CreateOrUpdateAsync (ResourceGroup az) name op))
          (with_trace (trace w1 ++
             [ {| ev_call :=
                    VMSS_CreateOrUpdateAsync (ResourceGroup az) name op;
                  ev_held := held w1; ev_time := clock w1 |} ])
             (with_statusCache (fun c =>
                {| lastRefresh := lastRefresh c;
                   scaleSets :=
                     alter (with_Capacity size) name (scaleSets c) |})
                w1)) in
      match CreateOrUpdateAsync az (trace w1) (ResourceGroup az) name op with
      | (_, Some err) => (Some err, w2)
      | (future, None) =>
          (None,
           with_goroutines
             (goroutines w1 ++ [go_waitForUpdateVMSSCapacity future])
             (with_ss (with_lastSizeRefresh (clock w2))
                (with_ss (with_curSize size) w2)))
      end
  end.
Proof.
  unfold updateVMSSCapacity. unM.
  destruct (getVMSSInfo az w) as [[info|err] w1]; [|done].
  simpl. repeat (case_match; simplify_eq/=); world_eq.
Qed.

Lemma SetScaleSetSize_maxSize size max w :
  SetScaleSetSize az size (with_ss (with_maxSize max) w) =
  (fst (SetScaleSetSize az size w),
   with_ss (with_maxSize max) (snd (SetScaleSetSize az size w))).
Proof.
  unfold SetScaleSetSize. unM. simpl.
  rewrite !updateVMSSCapacity_spec.
  change (with_held (sizeMutex :: held w) (with_ss (with_maxSize max) w))
    with (with_ss (with_maxSize max) (with_held (sizeMutex :: held w) w)).
  rewrite getVMSSInfo_maxSize.
  destruct (getVMSSInfo az _) as [[info|err] w1]; simpl; [|world_eq].
  repeat (case_match; simplify_eq/=); world_eq.
Qed.

End Capacity.

(** C1, as the code has it.  [SetScaleSetSize] never looks at [maxSize]:
    run on a world that differs only in [maxSize] it returns the same
    value and leaves the same world.  For every [size], larger than
    [maxSize] or not, once the descriptor of the group is fetched it
    issues [CreateOrUpdateAsync] with capacity [size]; it returns what
    that call answers, and when the backend accepts it has set
    [curSize = size] and [lastSizeRefresh = now] and has spawned the
    observer of the mutation. *)
Theorem SetScaleSetSize_no_bound_check
    (az : AzureManager) (size : Z) (w : World) :
  (forall max,
     SetScaleSetSize az size (with_ss (with_maxSize max) w) =
     (fst (SetScaleSetSize az size w),
      with_ss (with_maxSize max) (snd (SetScaleSetSize az size w))))
  /\
  (forall vmssInfo w1,
     getVMSSInfo az (with_held (sizeMutex :: held w) w) = (inl vmssInfo, w1) ->
     let op := with_Capacity size vmssInfo in
     let answer :=
       CreateOrUpdateAsync az (trace w1) (ResourceGroup az) (Name (ss w)) op in
     exists w2,
       SetScaleSetSize az size w = (snd answer, w2) /\
       trace w2 =
         trace w1 ++
         [ {| ev_call :=
                VMSS_CreateOrUpdateAsync (ResourceGroup az) (Name (ss w)) op;
              ev_held := sizeMutex :: held w;
              ev_time := clock w1 |} ] /\
       (snd answer = None ->
        curSize (ss w2) = size /\
        lastSizeRefresh (ss w2) = clock w2 /\
        goroutines w2 =
          goroutines w ++ [go_waitForUpdateVMSSCapacity (fst answer)])).
Proof.
  split; [intros max; apply SetScaleSetSize_maxSize|].
  intros info w1 E op answer.
  unfold SetScaleSetSize. unM. simpl.
  rewrite updateVMSSCapacity_spec, E.
  apply getVMSSInfo_frame in E as (Hs & Hh & Hg & _). simpl in *.
  rewrite Hs, Hh. fold op. fold answer.
  destruct answer as [future [err|]]; simpl;
    (eexists; split; [reflexivity|]); simpl; rewrite ?Hg; by repeat split.
Qed.

(** On the group with [maxSize = 3]: a request for 5 goes to the
    backend and is stored. *)
Lemma SetScaleSetSize_no_bound_check_witness :
  maxSize (ss Scenario.steady) < 5 /\
  exists w2,
    SetScaleSetSize Scenario.healthy 5 Scenario.steady = (None, w2) /\
    map ev_call (trace w2) =
      [VMSS_CreateOrUpdateAsync "rg" "vmss-a" (Scenario.vmss "vmss-a" 5)] /\
    curSize (ss w2) = 5.
Proof.
  split; [reflexivity|].
  destruct (SetScaleSetSize_no_bound_check Scenario.healthy 5 Scenario.steady)
    as [_ H].
  edestruct H as (w2 & E & T & P).
  - vm_compute. reflexivity.
  - exists w2. split; [exact E|]. split.
    + rewrite T. reflexivity.
    + apply P. reflexivity.
Defined.

(** C1 as stated fails: with [maxSize = 3], [SetScaleSetSize 5] returns
    no error and the capacity call has been made. *)
Lemma SetScaleSetSize_above_max_counterexample :
  maxSize (ss Scenario.steady) = 3 /\
  fst (SetScaleSetSize Scenario.healthy 5 Scenario.steady) = None /\
  map ev_call
      (trace (snd (SetScaleSetSize Scenario.healthy 5 Scenario.steady))) =
    [VMSS_CreateOrUpdateAsync "rg" "vmss-a" (Scenario.vmss "vmss-a" 5)] /\
  curSize (ss (snd (SetScaleSetSize Scenario.healthy 5 Scenario.steady))) = 5.
Proof. vm_compute. repeat split. Qed.

(** ** Increasing the size *)



(** ** Deleting instances *)

Lemma EqualFold_true (s t : string) :
  EqualFold s t = true <-> ToLower s = ToLower t.
Proof. unfold EqualFold. apply String.eqb_eq. Qed.

Lemma getInstanceByProviderID_spec (id : string) (w : World) :
  getInstanceByProviderID id w
  = (findInstance id (instanceCache (ss w)), w).
Proof. unfold getInstanceByProviderID. unM. simpl. world_eq. Qed.

Lemma eligible_cons (w : World) (i : azureRef) (l : list azureRef) :
  eligible w (i :: l)
  = if skipped w i then eligible w l else i :: eligible w l.
Proof.
  unfold eligible. rewrite filter_cons. destruct (skipped w i); by case_decide.
Qed.

Section Deleting.

Variable az : AzureManager.

(** The loop reads the instance cache under its lock and writes nothing. *)
Lemma deleteInstancesLoop_world common instances ids w :
  snd (deleteInstancesLoop az common instances ids w) = w.
Proof.
  revert ids. induction instances as [|i l IH]; intros ids; simpl; [done|].
  repeat (case_match; simplify_eq/=); try done.
  all: unM; rewrite getInstanceByProviderID_spec; simpl.
  all: repeat (case_match; simplify_eq/=); try done; apply IH.
Qed.

(** When the loop runs to its end, every instance was in the group of
    [commonAsg], and the ids collected are those of the instances that
    were not skipped, in order. *)
Lemma deleteInstancesLoop_Done common instances acc ids w w' :
  deleteInstancesLoop az common instances acc w = (Done ids, w') ->
  (instances = [] \/
   exists c, common = Some c /\ Forall (sameGroup az c) instances) /\
  ids = acc ++ map (segment az) (eligible w instances).
Proof.
  revert acc. induction instances as [|i l IH]; intros acc; simpl.
  - intros [= <- <-]. split; [by left|]. by rewrite app_nil_r.
  - destruct (GetAsgForInstance az i) as [[asg|] [e|]] eqn:G; try done.
    destruct common as [c|]; [|done].
    destruct (EqualFold (ng_Id asg) (ng_Id c)) eqn:F; [|done]. simpl.
    unM. rewrite getInstanceByProviderID_spec. simpl.
    rewrite eligible_cons. unfold skipped at 1.
    destruct (_ && _).
    + intros H. apply IH in H as [H ->]. split; [|done].
      right. exists c. split; [done|]. constructor; [by exists asg|].
      destruct H as [->|(c' & [= <-] & H)]; [constructor|done].
    + destruct (getLastSegment az (ref_Name i)) as [seg [e|]] eqn:L; [done|].
      intros H. apply IH in H as [H ->]. split.
      * right. exists c. split; [done|]. constructor; [by exists asg|].
        destruct H as [->|(c' & [= <-] & H)]; [constructor|done].
      * simpl. unfold segment at 2. rewrite L. simpl. by rewrite <- app_assoc.
Qed.

(** When the loop leaves the function, it is never with a nil error;
    it panics only on a group that is nil. *)
Lemma deleteInstancesLoop_Exit common instances acc o w w' :
  deleteInstancesLoop az common instances acc w = (Exit o, w') ->
  o <> Returns None /\
  (o = Panics ->
   common = None \/
   exists i, i ∈ instances /\ GetAsgForInstance az i = (None, None)).
Proof.
  revert acc. induction instances as [|i l IH]; intros acc; simpl; [done|].
  destruct (GetAsgForInstance az i) as [[asg|] [e|]] eqn:G.
  - intros [= <- <-]. done.
  - destruct common as [c|]; [|intros [= <- <-]; split; [done|by left]].
    destruct (EqualFold (ng_Id asg) (ng_Id c)) eqn:F; simpl;
      [|by intros [= <- <-]].
    unM. rewrite getInstanceByProviderID_spec. simpl.
    destruct (_ && _).
    + intros H. apply IH in H as [H1 H2]. split; [done|].
      intros P. destruct (H2 P) as [|(j & Hj & Gj)]; [by left|].
      right. exists j. split; [by right|done].
    + destruct (getLastSegment az (ref_Name i)) as [seg [e|]] eqn:L;
        [by intros [= <- <-]|].
      intros H. apply IH in H as [H1 H2]. split; [done|].
      intros P. destruct (H2 P) as [|(j & Hj & Gj)]; [by left|].
      right. exists j. split; [by right|done].
  - intros [= <- <-]. done.
  - intros [= <- <-]. split; [done|]. intros _. right. exists i.
    split; [by left|done].
Qed.

(** A successful [DeleteInstances], in full: either nothing was eligible
    and the world is untouched, or one delete call went out for the ids
    of the eligible instances, against the group of the first instance,
    and [curSize] went down by the number of those ids. *)
Lemma DeleteInstances_success instances w w' :
  DeleteInstances az instances w = (Returns None, w') ->
  let ids := map (segment az) (eligible w instances) in
  (ids = [] /\ w' = w) \/
  (exists first rest common future,
     instances = first :: rest /\ ids <> [] /\
     GetAsgForInstance az first = (Some common, None) /\
     Forall (sameGroup az common) instances /\
     DeleteInstancesAsync az (trace w) (ResourceGroup az) (ng_Id common) ids
       = (future, None) /\
     w' = with_goroutines
            (goroutines w ++ [go_waitForDeleteInstances future ids])
            (with_ss (with_curSize
                        (sub64 (curSize (ss w)) (Z.of_nat (length ids))))
               (with_clock
                  (clock w + latency az (trace w) (deleteCall az common ids))
                  (with_trace
                     (trace w ++
                      [ {| ev_call := deleteCall az common ids;
                           ev_held := instanceMutex :: held w;
                           ev_time := clock w |} ]) w)))).
Proof.
  destruct instances as [|first rest]; [intros [= <-]; by left|].
  unfold DeleteInstances.
  destruct (GetAsgForInstance az first) as [common [e|]] eqn:G; [done|].
  unM.
  destruct (deleteInstancesLoop az common (first :: rest) [] w)
    as [l w1] eqn:E.
  pose proof (deleteInstancesLoop_world common (first :: rest) [] w) as Hw.
  rewrite E in Hw. simpl in Hw. subst w1.
  destruct l as [ids|o].
  - apply deleteInstancesLoop_Done in E as [[|(c & -> & HF)] Hids]; [done|].
    simpl in Hids. rewrite <- Hids. clear Hids.
    destruct ids as [|i ids]; [intros [= <-]; by left|].
    simpl. intros H. right.
    destruct (DeleteInstancesAsync az _ _ _ _) as [future [e|]] eqn:D;
      simpl in H; [done|].
    exists first, rest, c, future. repeat split; try done.
    injection H as <-. unfold deleteCall. clear. world_eq.
  - apply deleteInstancesLoop_Exit in E as [Ho _]. by intros [= ->].
Qed.

Lemma deleteInstancesLoop_eq common instances ids w :
  deleteInstancesLoop az common instances ids w
  = (fst (deleteInstancesLoop az common instances ids w), w).
Proof.
  rewrite <- (deleteInstancesLoop_world common instances ids w) at 3.
  apply surjective_pairing.
Qed.

(** The loop never reads the name of the receiver. *)
Lemma deleteInstancesLoop_Name name common instances ids w :
  fst (deleteInstancesLoop az common instances ids
         (with_ss (with_Name name) w))
  = fst (deleteInstancesLoop az common instances ids w).
Proof.
  revert ids. induction instances as [|i l IH]; intros ids; simpl; [done|].
  repeat (case_match; simplify_eq/=); try done.
  all: unM; rewrite !getInstanceByProviderID_spec; simpl.
  all: repeat (case_match; simplify_eq/=); try done; apply IH.
Qed.

Lemma DeleteInstances_Name name instances w :
  DeleteInstances az instances (with_ss (with_Name name) w)
  = (fst (DeleteInstances az instances w),
     with_ss (with_Name name) (snd (DeleteInstances az instances w))).
Proof.
  destruct instances as [|first rest]; [done|].
  unfold DeleteInstances.
  destruct (GetAsgForInstance az first) as [common [e|]] eqn:G; [done|].
  unM.
  rewrite (deleteInstancesLoop_eq _ _ _ (with_ss (with_Name name) w)).
  rewrite (deleteInstancesLoop_eq _ _ _ w).
  rewrite deleteInstancesLoop_Name.
  destruct (fst (deleteInstancesLoop az common (first :: rest) [] w))
    as [[|id ids]|o]; try done.
  destruct common as [c|]; [|done]. simpl.
  destruct (DeleteInstancesAsync az _ _ _ _) as [future [e|]]; simpl;
    world_eq.
Qed.

End Deleting.

(** C2, as the code has it.  After a successful [DeleteInstances],
    [curSize] has gone down by the number [n] of instances of the list
    that were not skipped, which is the length of the id list sent to
    the backend and at most the length [k] of the list: an instance
    cached as [Deleting] is passed over and is not counted.  When every
    instance is skipped (or the list is empty) the world is untouched:
    no backend call and no decrement.  The subtraction is Go's
    ([sub64]); it is the difference of the integers whenever that fits
    in 64 bits. *)
Theorem DeleteInstances_decrement
    (az : AzureManager) (instances : list azureRef) (w w' : World) :
  DeleteInstances az instances w = (Returns None, w') ->
  let n := Z.of_nat (length (eligible w instances)) in
  n <= Z.of_nat (length instances) /\
  (n = 0 -> w' = w) /\
  (n <> 0 ->
   curSize (ss w') = sub64 (curSize (ss w)) n /\
   exists common,
     map ev_call (trace w')
     = map ev_call (trace w)
       ++ [deleteCall az common (map (segment az) (eligible w instances))]) /\
  (in_int64 (curSize (ss w) - n) -> curSize (ss w') = curSize (ss w) - n).
Proof.
  intros H n.
  assert (n <= Z.of_nat (length instances)) as Hle.
  { unfold n, eligible. pose proof (length_filter
      (fun i => skipped w i = false) instances). lia. }
  split; [exact Hle|].
  apply DeleteInstances_success in H
    as [[Hnil ->]|(first & rest & common & future & -> & Hne & _ & _ & _ & ->)].
  - apply (f_equal length) in Hnil. rewrite length_map in Hnil. simpl in Hnil.
    assert (n = 0) as Hn by (unfold n; lia).
    split; [done|]. split; [done|].
    intros _. rewrite Hn. lia.
  - assert (n <> 0) as Hn.
    { unfold n. destruct (eligible w (first :: rest)); [done|]. simpl. lia. }
    rewrite length_map. fold n. simpl.
    split; [done|]. split.
    + intros _. split; [done|]. exists common. by rewrite map_app.
    + intros I. by apply wrap64_id.
Qed.

(** The deletion of [a0; a1], where [a1] is already being deleted:
    one id goes out and [curSize] goes from 2 to 1. *)
Lemma DeleteInstances_decrement_witness :
  exists w',
    DeleteInstances Scenario.healthy [Scenario.a0; Scenario.a1] Scenario.steady
      = (Returns None, w') /\
    length (eligible Scenario.steady [Scenario.a0; Scenario.a1]) = 1%nat /\
    curSize (ss w') = curSize (ss Scenario.steady) - 1.
Proof.
  eexists. split; [vm_compute; reflexivity|]. split; [reflexivity|].
  eapply (DeleteInstances_decrement Scenario.healthy
            [Scenario.a0; Scenario.a1] Scenario.steady).
  - vm_compute. reflexivity.
  - vm_compute. split; discriminate.
Defined.

(** C2 as stated fails.  [a0; a1] has [k = 2] instances, the call
    succeeds, and [curSize] goes from 2 to 1; [a1] alone has [k = 1],
    the call succeeds, and [curSize] stays 2. *)
Lemma DeleteInstances_skipped_counterexample :
  curSize (ss Scenario.steady) = 2 /\
  fst (DeleteInstances Scenario.healthy [Scenario.a0; Scenario.a1]
         Scenario.steady) = Returns None /\
  curSize (ss (snd (DeleteInstances Scenario.healthy
                      [Scenario.a0; Scenario.a1] Scenario.steady))) = 1 /\
  fst (DeleteInstances Scenario.healthy [Scenario.a1] Scenario.steady)
    = Returns None /\
  curSize (ss (snd (DeleteInstances Scenario.healthy [Scenario.a1]
                      Scenario.steady))) = 2.
Proof. vm_compute. repeat split. Qed.

(** C5.  [DeleteInstances] on a list that holds two instances of
    different groups and, before the second of them, an instance that
    the manager resolves to no group.  [GetAsgForInstance] answers such
    an instance with a nil group and no error; [Belongs] tests for the
    nil group and returns an error, [DeleteInstances] calls [Id] on it.
    The call therefore ends in a run-time panic and not in the return of
    an error, wherever the unresolved instance stands before the
    mismatch; no delete call has been issued by then and [curSize] is
    what it was. *)
Theorem DeleteInstances_nil_group_panics :
  Scenario.a0 ∈ [Scenario.unknown; Scenario.a0; Scenario.b0] /\
  Scenario.b0 ∈ [Scenario.unknown; Scenario.a0; Scenario.b0] /\
  GetAsgForInstance Scenario.healthy Scenario.a0
    = (Some Scenario.groupA, None) /\
  GetAsgForInstance Scenario.healthy Scenario.b0
    = (Some Scenario.groupB, None) /\
  EqualFold (ng_Id Scenario.groupA) (ng_Id Scenario.groupB) = false /\
  GetAsgForInstance Scenario.healthy Scenario.unknown = (None, None) /\
  Belongs Scenario.healthy
    {| apiv1.Name := "node-x"; apiv1.ProviderID := "azure://other/7" |}
    Scenario.steady
    = ((false, Some (ErrDoesntBelongToKnownScaleSet "node-x")),
       Scenario.steady) /\
  DeleteInstances Scenario.healthy
    [Scenario.unknown; Scenario.a0; Scenario.b0] Scenario.steady
    = (Panics, Scenario.steady) /\
  DeleteInstances Scenario.healthy
    [Scenario.a0; Scenario.unknown; Scenario.b0] Scenario.steady
    = (Panics, Scenario.steady) /\
  trace Scenario.steady = [] /\
  curSize (ss Scenario.steady) = 2.
Proof.
  split; [right; by left|].
  split; [right; right; by left|].
  repeat split; vm_compute; reflexivity.
Qed.

(** C10.  When [DeleteInstances] accepts a list and something is
    eligible, the one delete call it makes is addressed to the group the
    manager resolves the first instance to, and every instance of the
    list is in that group up to case; the receiver's own name is not
    consulted: on a receiver with any other name the outcome is the same
    and the world changes in the same way.  The decrement is made on the
    receiver's [curSize], by the number of ids sent. *)
Theorem DeleteInstances_targets_first_group
    (az : AzureManager) (first : azureRef) (rest : list azureRef)
    (w w' : World) :
  DeleteInstances az (first :: rest) w = (Returns None, w') ->
  eligible w (first :: rest) <> [] ->
  let ids := map (segment az) (eligible w (first :: rest)) in
  (exists common,
     GetAsgForInstance az first = (Some common, None) /\
     Forall (sameGroup az common) (first :: rest) /\
     trace w' =
       trace w ++
       [ {| ev_call :=
              VMSS_DeleteInstancesAsync (ResourceGroup az) (ng_Id common) ids;
            ev_held := instanceMutex :: held w;
            ev_time := clock w |} ]) /\
  curSize (ss w') = sub64 (curSize (ss w)) (Z.of_nat (length ids)) /\
  Name (ss w') = Name (ss w) /\
  (forall name,
     DeleteInstances az (first :: rest) (with_ss (with_Name name) w)
     = (Returns None, with_ss (with_Name name) w')).
Proof.
  intros H Hne ids. split; [|split; [|split]].
  - apply DeleteInstances_success in H
      as [[Hnil _]|(f & r & common & future & [= <- <-] & _ & G & HF & _ & ->)].
    + destruct (eligible w (first :: rest)); [done|discriminate].
    + exists common. repeat split; done.
  - apply DeleteInstances_success in H
      as [[Hnil _]|(f & r & common & future & [= <- <-] & _ & G & HF & _ & ->)].
    + destruct (eligible w (first :: rest)); [done|discriminate].
    + reflexivity.
  - apply DeleteInstances_success in H
      as [[Hnil _]|(f & r & common & future & [= <- <-] & _ & G & HF & _ & ->)].
    + destruct (eligible w (first :: rest)); [done|discriminate].
    + reflexivity.
  - intros name. rewrite DeleteInstances_Name. by rewrite H.
Qed.

(** The driver of [vmss-b] asked to delete an instance of [vmss-a]: the
    call goes to [vmss-a] and the size of [vmss-b] goes down. *)
Lemma DeleteInstances_targets_first_group_witness :
  Name (ss Scenario.other) = "vmss-b" /\
  exists w',
    DeleteInstances Scenario.healthy [Scenario.a0] Scenario.other
      = (Returns None, w') /\
    map ev_call (trace w') = [VMSS_DeleteInstancesAsync "rg" "vmss-a" ["0"]] /\
    curSize (ss w') = 1 /\
    Name (ss w') = "vmss-b".
Proof.
  split; [reflexivity|].
  eexists. split; [vm_compute; reflexivity|].
  edestruct (DeleteInstances_targets_first_group Scenario.healthy
               Scenario.a0 [] Scenario.other)
    as ((common & G & _ & T) & C & N & _).
  - vm_compute. reflexivity.
  - vm_compute. discriminate.
  - split; [|split].
    + rewrite T. injection G as <-. reflexivity.
    + rewrite C. reflexivity.
    + rewrite N. reflexivity.
Defined.

(** ** Deleting nodes *)

Section Nodes.

Variable az : AzureManager.

(** [Belongs] writes nothing, and answers [true, nil] exactly for the
    nodes of the receiver's group. *)
Lemma Belongs_cases node w :
  (belongs az w node /\ Belongs az node w = ((true, None), w)) \/
  (~ belongs az w node /\
   exists b err, Belongs az node w = ((b, err), w) /\
                 (b = false \/ err <> None)).
Proof.
  unfold Belongs, belongs. simpl.
  destruct (GetAsgForInstance az _) as [[asg|] [e|]] eqn:G; unM; simpl.
  - right. split; [by intros (? & [=] & _)|]. eauto 6.
  - destruct (EqualFold (ng_Id asg) (Name (ss w))) eqn:F; simpl.
    + left. split; [by exists asg|done].
    + right. split; [intros (? & [= <-] & ?); congruence|]. eauto 6.
  - right. split; [by intros (? & [=] & _)|]. eauto 6.
  - right. split; [by intros (? & [=] & _)|]. eauto 6.
Qed.

(** The loop of [DeleteNodes] writes nothing; it yields the references
    of all the nodes when each of them belongs to the receiver, and an
    error as soon as one does not. *)
Lemma deleteNodesLoop_all nodes refs w :
  Forall (belongs az w) nodes ->
  deleteNodesLoop az nodes refs w = (inl (refs ++ map refOf nodes), w).
Proof.
  revert refs. induction nodes as [|n l IH]; intros refs H; simpl.
  - by rewrite app_nil_r.
  - apply Forall_cons in H as [Hn Hl]. unM.
    destruct (Belongs_cases n w) as [[_ ->]|[Hn' _]]; [|done].
    rewrite (IH _ Hl). by rewrite <- app_assoc.
Qed.

Lemma deleteNodesLoop_some nodes refs w :
  ~ Forall (belongs az w) nodes ->
  exists e, deleteNodesLoop az nodes refs w = (inr e, w).
Proof.
  revert refs. induction nodes as [|n l IH]; intros refs H; simpl.
  - destruct H. constructor.
  - unM. destruct (Belongs_cases n w) as [[Hn ->]|[_ (b & err & -> & Hb)]].
    + apply IH. intros Hl. apply H. by constructor.
    + simpl. destruct b, err as [e|]; simpl; eauto.
      by destruct Hb.
Qed.

End Nodes.

(** C6.  [DeleteNodes] first reads the size with [GetScaleSetSize]; the
    calls that read makes are list calls, never a delete call.  If the
    read fails its error is returned.  If the size read, which is then
    the cached [curSize], is at most [minSize] (so also when it equals
    [minSize]), an error is returned and nothing happens after the read:
    no delete call.  Otherwise each node is checked with [Belongs]: if
    all of them resolve to the group of the receiver, the result is that
    of [DeleteInstances] on their provider ids; if one does not, an
    error is returned and again nothing happens after the read. *)
Theorem DeleteNodes_steps
    (az : AzureManager) (nodes : list apiv1.Node) (w : World)
    (size : Z) (err : error) (w1 : World) :
  GetScaleSetSize az w = ((size, err), w1) ->
  (exists evs, trace w1 = trace w ++ evs /\
     Forall (fun e => is_delete_call e = false) evs) /\
  (forall e, err = Some e -> DeleteNodes az nodes w = (Returns (Some e), w1)) /\
  (err = None ->
   curSize (ss w1) = size /\
   (size <= minSize (ss w) ->
    DeleteNodes az nodes w = (Returns (Some ErrMinSizeReached), w1)) /\
   (minSize (ss w) < size ->
    (Forall (belongs az w) nodes ->
     DeleteNodes az nodes w = DeleteInstances az (map refOf nodes) w1) /\
    (~ Forall (belongs az w) nodes ->
     exists e, DeleteNodes az nodes w = (Returns (Some e), w1)))).
Proof.
  intros E.
  pose proof (getCurSize_frame az w _ _ E)
    as (Hn & Hmin & _ & _ & _ & _ & _ & Hc & evs & Ht & Hev).
  split; [|split].
  - exists evs. split; [done|].
    eapply Forall_impl; [exact Hev|].
    intros e. unfold is_list_call, is_delete_call. by destruct (ev_call e).
  - intros e ->. unfold DeleteNodes. unM. by rewrite E.
  - intros ->. simpl in Hc. split; [by apply Hc|].
    assert (forall n, belongs az w1 n <-> belongs az w n) as Hb.
    { intros n. unfold belongs. by rewrite Hn. }
    unfold DeleteNodes. unM. rewrite E. simpl. rewrite Hmin.
    split; [|intros Hlt; split].
    + intros Hle. by destruct (Z.leb_spec size (minSize (ss w))); [|lia].
    + intros HF. destruct (Z.leb_spec size (minSize (ss w))); [lia|].
      rewrite deleteNodesLoop_all; [done|].
      eapply Forall_impl; [exact HF|]. intros n. apply Hb.
    + intros HF. destruct (Z.leb_spec size (minSize (ss w))); [lia|].
      destruct (deleteNodesLoop_some az nodes [] w1) as [e ->]; [|by exists e].
      intros HF1. apply HF. eapply Forall_impl; [exact HF1|].
      intros n. apply Hb.
Qed.

(** The group at size 2 with [minSize = 1] hands its node over to
    [DeleteInstances] and refuses a node of the other group; brought
    down to size 1 it refuses at once. *)
Lemma DeleteNodes_steps_witness :
  DeleteNodes Scenario.healthy [Scenario.nodeA0] Scenario.steady
    = DeleteInstances Scenario.healthy [Scenario.a0] Scenario.steady /\
  (exists e,
     DeleteNodes Scenario.healthy [Scenario.nodeA0; Scenario.nodeB0]
       Scenario.steady = (Returns (Some e), Scenario.steady)) /\
  DeleteNodes Scenario.healthy [Scenario.nodeA0]
      (with_ss (with_curSize 1) Scenario.steady)
    = (Returns (Some ErrMinSizeReached),
       with_ss (with_curSize 1) Scenario.steady).
Proof.
  split; [|split].
  - edestruct (DeleteNodes_steps Scenario.healthy [Scenario.nodeA0]
                 Scenario.steady) as (_ & _ & H);
      [vm_compute; reflexivity|].
    destruct (H eq_refl) as (_ & _ & P).
    destruct (P ltac:(vm_compute; reflexivity)) as [A _].
    apply A. constructor; [|constructor].
    exists Scenario.groupA. split; reflexivity.
  - edestruct (DeleteNodes_steps Scenario.healthy
                 [Scenario.nodeA0; Scenario.nodeB0] Scenario.steady)
      as (_ & _ & H); [vm_compute; reflexivity|].
    destruct (H eq_refl) as (_ & _ & P).
    destruct (P ltac:(vm_compute; reflexivity)) as [_ B].
    apply B. intros F.
    apply Forall_cons in F as [_ F]. apply Forall_cons in F as [F _].
    destruct F as (asg & G & F). injection G as <-. discriminate.
  - edestruct (DeleteNodes_steps Scenario.healthy [Scenario.nodeA0]
                 (with_ss (with_curSize 1) Scenario.steady)) as (_ & _ & H);
      [vm_compute; reflexivity|].
    destruct (H eq_refl) as (_ & M & _).
    apply M. vm_compute. discriminate.
Defined.

(** ** The observers of mutations *)

Section Observers.

Variable az : AzureManager.

(** With the group cache out of date, [getVMSSInfo] makes exactly one
    list call. *)
Lemma getVMSSInfo_stale_trace w :
  groupCacheFresh w = false ->
  trace (snd (getVMSSInfo az w))
  = trace w ++ [ {| ev_call := VMSS_List (ResourceGroup az);
                    ev_held := statusCacheMutex :: held w;
                    ev_time := clock w |} ].
Proof.
  unfold groupCacheFresh, getVMSSInfo, getAllVMSSInfo. intros H. unM. simpl.
  rewrite H. repeat (case_match; simplify_eq/=); done.
Qed.

(** With the size cache out of date, the calls of [getCurSize] are those
    of [getVMSSInfo]. *)
Lemma getCurSize_stale_trace w :
  sizeCacheFresh w = false ->
  trace (snd (getCurSize az w))
  = trace (snd (getVMSSInfo az (with_held (sizeMutex :: held w) w))).
Proof.
  intros H. rewrite (getCurSize_stale az w H).
  destruct (getVMSSInfo az _) as [[set|err] w1]; simpl.
  - by destruct (curSize (ss w1) =? _).
  - by destruct (isAzureRequestsThrottled az err).
Qed.

Lemma invalidateStatusCacheWithLock_spec w :
  invalidateStatusCacheWithLock w
  = (tt,
     with_statusCache (fun c =>
         {| lastRefresh :=
              clock w + mul64 (-1) (sizeRefreshPeriod (ss w));
            scaleSets := scaleSets c |})
       (with_ss (with_lastSizeRefresh
                   (clock w + mul64 (-1) (sizeRefreshPeriod (ss w)))) w)).
Proof.
  unfold invalidateStatusCacheWithLock. unM. simpl.
  unfold Time_Add. world_eq.
Qed.

Lemma invalidateInstanceCache_spec w :
  invalidateInstanceCache w
  = (tt, with_ss (with_lastInstanceRefresh
                    (clock w - vmssInstancesRefreshPeriod)) w).
Proof.
  unfold invalidateInstanceCache. unM. simpl. world_eq.
Qed.

(** The observer of a deletion waits and logs; of the world it changes
    the trace and the clock only. *)
Lemma waitForDeleteInstances_spec future ids w :
  waitForDeleteInstances az future ids w
  = (tt,
     with_clock
       (clock w + latency az (trace w) (VMSS_WaitForDeleteInstances future))
       (with_trace
          (trace w ++ [ {| ev_call := VMSS_WaitForDeleteInstances future;
                           ev_held := held w; ev_time := clock w |} ]) w)).
Proof.
  unfold waitForDeleteInstances. unM. simpl.
  repeat (case_match; simplify_eq/=); done.
Qed.

End Observers.

(** C7, as the code has it.  The observer of a capacity update that
    ends with an error invalidates the size cache of the set and the
    process-wide group cache: at any later time both are out of date, so
    the next [TargetSize] goes past both and makes a list call to the
    backend.  The observer of an instance deletion only waits and logs:
    whatever the outcome, it leaves the set and the group cache as they
    were, and a [TargetSize] that finds the size cache fresh afterwards
    still answers from it without any backend call. *)
Theorem failed_observers (az : AzureManager) (future : Future) (w : World) :
  (forall isSuccess e d,
     in_int64 (sizeRefreshPeriod (ss w)) ->
     isSuccessHTTPResponse az
       (fst (WaitForCreateOrUpdate az (trace w) future))
       (snd (WaitForCreateOrUpdate az (trace w) future))
     = (isSuccess, Some e) ->
     0 <= d ->
     let w1 := snd (waitForUpdateVMSSCapacity az future w) in
     sizeCacheFresh (elapse d w1) = false /\
     groupCacheFresh (elapse d w1) = false /\
     trace (snd (TargetSize az (elapse d w1)))
     = trace w1 ++ [ {| ev_call := VMSS_List (ResourceGroup az);
                        ev_held := statusCacheMutex :: sizeMutex :: held w;
                        ev_time := clock w1 + d |} ])
  /\
  (forall ids,
     let w1 := snd (waitForDeleteInstances az future ids w) in
     ss w1 = ss w /\
     scaleSetStatusCache w1 = scaleSetStatusCache w /\
     forall d,
       sizeCacheFresh (elapse d w1) = true ->
       TargetSize az (elapse d w1) = ((curSize (ss w), None), elapse d w1)).
Proof.
  split.
  - intros isSuccess e d Hp Hs Hd w1.
    assert (held w1 = held w /\
            sizeRefreshPeriod (ss w1) = sizeRefreshPeriod (ss w) /\
            lastSizeRefresh (ss w1)
              = clock w1 + mul64 (-1) (sizeRefreshPeriod (ss w)) /\
            lastRefresh (scaleSetStatusCache w1)
              = clock w1 + mul64 (-1) (sizeRefreshPeriod (ss w)))
      as (Hh & Hper & Hl & Hr).
    { unfold w1, waitForUpdateVMSSCapacity.
      unfold backend, mbind, mret, M_bind, M_ret.
      destruct (WaitForCreateOrUpdate az (trace w) future) as [resp err].
      simpl in Hs. rewrite Hs.
      destruct isSuccess.
      - rewrite invalidateInstanceCache_spec.
        rewrite invalidateStatusCacheWithLock_spec. simpl. done.
      - rewrite invalidateStatusCacheWithLock_spec. simpl. done. }
    pose proof (neg_period_le _ Hp) as Hneg.
    assert (sizeCacheFresh (elapse d w1) = false) as Fs.
    { unfold sizeCacheFresh, elapse, Time_After, Time_Add. simpl.
      rewrite Hl, Hper. apply Z.ltb_ge. lia. }
    assert (groupCacheFresh (elapse d w1) = false) as Fg.
    { unfold groupCacheFresh, elapse, Time_After, Time_Add. simpl.
      rewrite Hr, Hper. apply Z.ltb_ge. lia. }
    split; [done|]. split; [done|].
    unfold TargetSize, GetScaleSetSize. unM.
    destruct (getCurSize az (elapse d w1)) as [r w2] eqn:E. simpl.
    change w2 with (snd (r, w2)). rewrite <- E.
    rewrite getCurSize_stale_trace by done.
    rewrite getVMSSInfo_stale_trace by done.
    simpl. by rewrite Hh.
  - intros ids w1. unfold w1. rewrite waitForDeleteInstances_spec. simpl.
    split; [done|]. split; [done|].
    intros d F. unfold TargetSize, GetScaleSetSize. unM.
    by rewrite getCurSize_fresh.
Qed.

(** [SetScaleSetSize 3] is issued, the wait on its future fails, and the
    next [TargetSize] calls the backend.  After a deletion whose wait
    fails, [TargetSize] still answers the decremented size from the
    cache. *)
Lemma failed_observers_witness :
  (exists w0 w1,
     SetScaleSetSize Scenario.failing 3 Scenario.steady = (None, w0) /\
     goroutines w0 = [go_waitForUpdateVMSSCapacity 0%nat] /\
     run Scenario.failing (go_waitForUpdateVMSSCapacity 0%nat) w0 = (tt, w1) /\
     map ev_call (trace (snd (TargetSize Scenario.failing
                                (elapse (3 * Second) w1))))
     = map ev_call (trace w1) ++ [VMSS_List "rg"])
  /\
  (exists w0 w1,
     DeleteInstances Scenario.failing [Scenario.a0] Scenario.steady
       = (Returns None, w0) /\
     goroutines w0 = [go_waitForDeleteInstances 0%nat ["0"]] /\
     run Scenario.failing (go_waitForDeleteInstances 0%nat ["0"]) w0
       = (tt, w1) /\
     TargetSize Scenario.failing (elapse (3 * Second) w1)
     = ((1, None), elapse (3 * Second) w1)).
Proof.
  split.
  - pose (w0 := snd (SetScaleSetSize Scenario.failing 3 Scenario.steady)).
    exists w0, (snd (waitForUpdateVMSSCapacity Scenario.failing 0%nat w0)).
    split; [vm_compute; reflexivity|]. split; [reflexivity|].
    split; [vm_compute; reflexivity|].
    destruct (failed_observers Scenario.failing 0%nat w0) as [H _].
    destruct (H false (DetailedError 409 "conflict") (3 * Second))
      as (_ & _ & T).
    + vm_compute. split; discriminate.
    + reflexivity.
    + vm_compute. discriminate.
    + rewrite T, map_app. reflexivity.
  - pose (w0 := snd (DeleteInstances Scenario.failing [Scenario.a0]
                       Scenario.steady)).
    exists w0, (snd (waitForDeleteInstances Scenario.failing 0%nat ["0"] w0)).
    split; [vm_compute; reflexivity|]. split; [reflexivity|].
    split; [vm_compute; reflexivity|].
    destruct (failed_observers Scenario.failing 0%nat w0) as [_ H].
    destruct (H ["0"]) as (_ & _ & T).
    apply (T (3 * Second)). vm_compute. reflexivity.
Defined.

(** C7 as stated fails for the observer of a deletion.  The deletion of
    [a0] is issued, the wait on its future fails, and the observer has
    not touched [lastSizeRefresh]: the next [TargetSize] answers 1 from
    the cache and the trace holds no list call. *)
Lemma failed_delete_observer_counterexample :
  Scenario.successOf (fst Scenario.failed) (snd Scenario.failed)
    = (false, Some (DetailedError 409 "conflict")) /\
  let w0 := snd (DeleteInstances Scenario.failing [Scenario.a0]
                   Scenario.steady) in
  let w1 := snd (run Scenario.failing
                   (go_waitForDeleteInstances 0%nat ["0"]) w0) in
  goroutines w0 = [go_waitForDeleteInstances 0%nat ["0"]] /\
  lastSizeRefresh (ss w1) = lastSizeRefresh (ss Scenario.steady) /\
  sizeCacheFresh w1 = true /\
  TargetSize Scenario.failing w1 = ((1, None), w1) /\
  map ev_call (trace (snd (TargetSize Scenario.failing w1)))
  = [VMSS_DeleteInstancesAsync "rg" "vmss-a" ["0"];
     VMSS_WaitForDeleteInstances 0%nat].
Proof. vm_compute. repeat split. Qed.

(** ** The instance cache *)

Section InstanceCache.

Variable az : AzureManager.

Lemma buildInstanceCache_app vms1 vms2 :
  buildInstanceCache az (vms1 ++ vms2)
  = buildInstanceCache az vms1 ++ buildInstanceCache az vms2.
Proof.
  induction vms1 as [|vm l IH]; simpl; [done|].
  repeat case_match; by rewrite ?IH.
Qed.

Lemma length_zero_empty (s : string) :
  (String.length s =? 0)%nat = true <-> s = "".
Proof.
  destruct s; simpl; split; try done.
Qed.

End InstanceCache.

(** C8, as the code has it.  In the rebuilt cache
    - an entry whose id is empty is dropped, and so is an entry whose id
      [convertResourceGroupNameToLower] rejects;
    - any other entry is kept, in its place, with the normalised id
      prefixed with [azure://];
    - its status is [Deleting] for the provisioning state ["Deleting"],
      [Creating] for ["Creating"], [Running] for any other provisioning
      state, and no status at all (nil) when the provisioning state is
      absent. *)
Theorem buildInstanceCache_rebuild
    (az : AzureManager) (before after : list compute.VirtualMachineScaleSetVM)
    (vm : compute.VirtualMachineScaleSetVM) :
  (compute.ID vm = "" ->
   buildInstanceCache az (before ++ vm :: after)
   = buildInstanceCache az (before ++ after))
  /\
  (forall e,
     snd (convertResourceGroupNameToLower az (compute.ID vm)) = Some e ->
     buildInstanceCache az (before ++ vm :: after)
     = buildInstanceCache az (before ++ after))
  /\
  (forall resourceID,
     compute.ID vm <> "" ->
     convertResourceGroupNameToLower az (compute.ID vm) = (resourceID, None) ->
     buildInstanceCache az (before ++ vm :: after)
     = buildInstanceCache az before
       ++ {| cloudprovider.Id := "azure://" +:+ resourceID;
             cloudprovider.Status := instanceStatusFromVM vm |}
       :: buildInstanceCache az after)
  /\
  (compute.ProvisioningState vm = Some "Deleting" ->
   instanceStatusFromVM vm
   = Some {| cloudprovider.State := cloudprovider.InstanceDeleting |})
  /\
  (compute.ProvisioningState vm = Some "Creating" ->
   instanceStatusFromVM vm
   = Some {| cloudprovider.State := cloudprovider.InstanceCreating |})
  /\
  (forall state,
     compute.ProvisioningState vm = Some state ->
     state <> "Deleting" -> state <> "Creating" ->
     instanceStatusFromVM vm
     = Some {| cloudprovider.State := cloudprovider.InstanceRunning |})
  /\
  (compute.ProvisioningState vm = None -> instanceStatusFromVM vm = None).
Proof.
  repeat split.
  - intros H. rewrite !buildInstanceCache_app. simpl. by rewrite H.
  - intros e H. rewrite !buildInstanceCache_app. simpl.
    destruct (convertResourceGroupNameToLower az (compute.ID vm))
      as [r [e'|]]; [|done].
    by destruct (String.length (compute.ID vm) =? 0)%nat.
  - intros r Hne H. rewrite buildInstanceCache_app. simpl. rewrite H.
    destruct (String.length (compute.ID vm) =? 0)%nat eqn:L; [|done].
    by apply length_zero_empty in L.
  - intros H. unfold instanceStatusFromVM. by rewrite H.
  - intros H. unfold instanceStatusFromVM. by rewrite H.
  - intros state H Hd Hc. unfold instanceStatusFromVM. rewrite H.
    unfold compute.ProvisioningStateDeleting, compute.ProvisioningStateCreating.
    destruct (String.eqb_spec state "Deleting"); [done|].
    by destruct (String.eqb_spec state "Creating").
  - intros H. unfold instanceStatusFromVM. by rewrite H.
Qed.

(** A raw list of four: a running VM, a VM whose id is empty, a VM
    being deleted and a VM that reports no provisioning state. *)
Lemma buildInstanceCache_rebuild_witness :
  buildInstanceCache Scenario.healthy
    [ {| compute.ID := "/RG/vmss-a/0";
         compute.ProvisioningState := Some "Succeeded" |};
      {| compute.ID := ""; compute.ProvisioningState := Some "Deleting" |};
      {| compute.ID := "/RG/vmss-a/2";
         compute.ProvisioningState := Some "Deleting" |};
      {| compute.ID := "/RG/vmss-a/3"; compute.ProvisioningState := None |} ]
  = [ {| cloudprovider.Id := "azure:///rg/vmss-a/0";
         cloudprovider.Status := Scenario.running |};
      {| cloudprovider.Id := "azure:///rg/vmss-a/2";
         cloudprovider.Status := Scenario.deleting |};
      {| cloudprovider.Id := "azure:///rg/vmss-a/3";
         cloudprovider.Status := None |} ].
Proof.
  destruct (buildInstanceCache_rebuild Scenario.healthy
    [ {| compute.ID := "/RG/vmss-a/0";
         compute.ProvisioningState := Some "Succeeded" |} ]
    [ {| compute.ID := "/RG/vmss-a/2";
         compute.ProvisioningState := Some "Deleting" |};
      {| compute.ID := "/RG/vmss-a/3"; compute.ProvisioningState := None |} ]
    {| compute.ID := ""; compute.ProvisioningState := Some "Deleting" |})
    as (Drop & _ & _ & _ & _ & _ & Absent).
  etransitivity; [exact (Drop eq_refl)|].
  destruct (buildInstanceCache_rebuild Scenario.healthy
    [ {| compute.ID := "/RG/vmss-a/0";
         compute.ProvisioningState := Some "Succeeded" |};
      {| compute.ID := "/RG/vmss-a/2";
         compute.ProvisioningState := Some "Deleting" |} ]
    []
    {| compute.ID := "/RG/vmss-a/3"; compute.ProvisioningState := None |})
    as (_ & _ & Keep & _).
  etransitivity;
    [exact (Keep "/rg/vmss-a/3" ltac:(discriminate) eq_refl)|].
  reflexivity.
Defined.

(** C8 as stated fails: a VM that reports no provisioning state gets no
    status, not [Running]. *)
Lemma buildInstanceCache_absent_state_counterexample :
  map cloudprovider.Status
    (buildInstanceCache Scenario.healthy
       [ {| compute.ID := "/RG/vmss-a/3";
            compute.ProvisioningState := None |} ])
  = [None] /\
  instanceStatusFromVM
    {| compute.ID := "/RG/vmss-a/3"; compute.ProvisioningState := None |}
  <> Some {| cloudprovider.State := cloudprovider.InstanceRunning |}.
Proof. split; [reflexivity|discriminate]. Qed.

(** ** Locks *)

Section Locks.

Variable az : AzureManager.

Lemma getVMSSInfo_events w :
  held (snd (getVMSSInfo az w)) = held w /\
  exists evs,
    trace (snd (getVMSSInfo az w)) = trace w ++ evs /\
    Forall (fun e => ev_call e = VMSS_List (ResourceGroup az) /\
                     ev_held e = statusCacheMutex :: held w) evs /\
    (groupCacheFresh w = false -> evs <> []).
Proof.
  destruct (getVMSSInfo az w) as [r w1] eqn:E. simpl.
  pose proof (getVMSSInfo_frame az w r w1 E) as (_ & Hh & _ & evs & Ht & Hev).
  split; [done|]. exists evs. repeat split; try done.
  intros F ->. pose proof (getVMSSInfo_stale_trace az w F) as T.
  rewrite E in T. simpl in T. rewrite Ht, app_nil_r in T.
  apply (f_equal length) in T. rewrite length_app in T. simpl in T. lia.
Qed.

Lemma getCurSize_events w :
  held (snd (getCurSize az w)) = held w /\
  exists evs,
    trace (snd (getCurSize az w)) = trace w ++ evs /\
    Forall (fun e => ev_call e = VMSS_List (ResourceGroup az) /\
                     ev_held e = statusCacheMutex :: sizeMutex :: held w)
           evs /\
    (sizeCacheFresh w = false -> groupCacheFresh w = false -> evs <> []).
Proof.
  destruct (sizeCacheFresh w) eqn:F.
  - rewrite getCurSize_fresh by done. simpl. split; [done|].
    exists []. rewrite app_nil_r. repeat split; done.
  - pose proof (getCurSize_stale_trace az w F) as T.
    pose proof (getVMSSInfo_events (with_held (sizeMutex :: held w) w))
      as (Hh & evs & Ht & Hev & Hne).
    split.
    + rewrite (getCurSize_stale az w F).
      destruct (getVMSSInfo az _) as [[set|err] w1]; simpl in *.
      * destruct (curSize (ss w1) =? compute.Capacity (compute.sku set));
          simpl; by rewrite Hh.
      * destruct (isAzureRequestsThrottled az err); simpl; by rewrite Hh.
    + exists evs. rewrite T, Ht. repeat split; done.
Qed.

Lemma SetScaleSetSize_events size w :
  held (snd (SetScaleSetSize az size w)) = held w /\
  exists evs,
    trace (snd (SetScaleSetSize az size w)) = trace w ++ evs /\
    Forall (fun e =>
              (ev_call e = VMSS_List (ResourceGroup az) /\
               ev_held e = statusCacheMutex :: sizeMutex :: held w) \/
              (is_capacity_call e = true /\
               ev_held e = sizeMutex :: held w)) evs.
Proof.
  unfold SetScaleSetSize. unM. simpl. rewrite updateVMSSCapacity_spec.
  pose proof (getVMSSInfo_events (with_held (sizeMutex :: held w) w))
    as (Hh & evs & Ht & Hev & _).
  assert (Forall (fun e =>
              (ev_call e = VMSS_List (ResourceGroup az) /\
               ev_held e = statusCacheMutex :: sizeMutex :: held w) \/
              (is_capacity_call e = true /\
               ev_held e = sizeMutex :: held w)) evs) as Hev'.
  { eapply Forall_impl; [exact Hev|]. intros e He. by left. }
  destruct (getVMSSInfo az _) as [[info|err] w1]; simpl in *.
  - destruct (CreateOrUpdateAsync az _ _ _ _) as [future [e|]]; simpl;
      rewrite Hh; simpl; (split; [done|]);
      eexists; rewrite Ht, <- app_assoc; (split; [reflexivity|]);
      (apply Forall_app; split; [done|]);
      constructor; [|constructor| |constructor]; by right.
  - rewrite Hh. simpl. split; [done|]. by exists evs.
Qed.

End Locks.

(** C9, as the code has it.  [getVMSSInfo] takes the group cache lock on
    entry and gives it back on return: every call it makes is a backend
    list call made with that lock held, and it does make one when the
    group cache is out of date.  [getCurSize] and [SetScaleSetSize] run
    [getVMSSInfo] with [sizeMutex] held, so that list call is in flight
    with both the size lock and the group cache lock held; the capacity
    call of [SetScaleSetSize] is made under [sizeMutex] alone.  Each of
    the three gives back every lock it took. *)
Theorem locks_held_during_calls (az : AzureManager) (w : World) :
  (held (snd (getVMSSInfo az w)) = held w /\
   exists evs,
     trace (snd (getVMSSInfo az w)) = trace w ++ evs /\
     Forall (fun e => ev_call e = VMSS_List (ResourceGroup az) /\
                      ev_held e = statusCacheMutex :: held w) evs /\
     (groupCacheFresh w = false -> evs <> []))
  /\
  (held (snd (getCurSize az w)) = held w /\
   exists evs,
     trace (snd (getCurSize az w)) = trace w ++ evs /\
     Forall (fun e => ev_call e = VMSS_List (ResourceGroup az) /\
                      ev_held e = statusCacheMutex :: sizeMutex :: held w)
            evs /\
     (sizeCacheFresh w = false -> groupCacheFresh w = false -> evs <> []))
  /\
  (forall size,
     held (snd (SetScaleSetSize az size w)) = held w /\
     exists evs,
       trace (snd (SetScaleSetSize az size w)) = trace w ++ evs /\
       Forall (fun e =>
                 (ev_call e = VMSS_List (ResourceGroup az) /\
                  ev_held e = statusCacheMutex :: sizeMutex :: held w) \/
                 (is_capacity_call e = true /\
                  ev_held e = sizeMutex :: held w)) evs).
Proof.
  split; [apply getVMSSInfo_events|].
  split; [apply getCurSize_events|].
  intros size. apply SetScaleSetSize_events.
Qed.

(** The refresh of an out-of-date size: one list call, made while the
    group cache lock and the size lock are both held. *)
Lemma locks_held_during_calls_witness :
  exists e,
    trace (snd (getCurSize Scenario.healthy Scenario.stale)) = [e] /\
    ev_call e = VMSS_List "rg" /\
    ev_held e = [statusCacheMutex; sizeMutex] /\
    held (snd (getCurSize Scenario.healthy Scenario.stale)) = [].
Proof.
  destruct (locks_held_during_calls Scenario.healthy Scenario.stale)
    as (_ & (Hh & evs & Ht & Hev & Hne) & _).
  specialize (Hne eq_refl eq_refl).
  assert (length (trace (snd (getCurSize Scenario.healthy Scenario.stale)))
          = 1%nat) as L by (vm_compute; reflexivity).
  rewrite Ht in L. simpl in L.
  destruct evs as [|e [|e' evs]]; [done| |simpl in L; lia].
  apply Forall_cons in Hev as [[Hc Hl] _].
  exists e. repeat split; assumption.
Defined.

(** C9 as stated fails: in the refresh of an out-of-date size the
    backend list call is issued while the group cache lock is held, and
    the size lock is held with it. *)
Lemma getCurSize_locks_counterexample :
  held Scenario.stale = [] /\
  trace (snd (getCurSize Scenario.healthy Scenario.stale))
  = [ {| ev_call := VMSS_List "rg";
         ev_held := [statusCacheMutex; sizeMutex];
         ev_time := 1025 * Second |} ].
Proof. vm_compute. split; reflexivity. Qed.

(** * Further properties of the driver *)

(** ** The retry list *)

Lemma init_loop_filter (codes acc : list Z) :
  init_loop codes acc
  = acc ++ filter (fun c => c <> StatusTooManyRequests) codes.
Proof.
  revert acc. induction codes as [|c l IH]; intros acc; simpl.
  - by rewrite app_nil_r.
  - rewrite filter_cons.
    destruct (Z.eqb_spec c StatusTooManyRequests) as [->|Hne];
      destruct (decide _) as [Hd|Hd]; simpl;
      first [done | apply IH | rewrite IH; by rewrite <- app_assoc].
Qed.

(** X1.  [init] leaves no 429 in the retry list and keeps every other
    code, as often as it occurred and in the same order; a list without
    429 is left as it is. *)
Theorem init_drops_too_many_requests (codes : list Z) :
  (StatusTooManyRequests ∉ init codes) /\
  init codes = filter (fun c => c <> StatusTooManyRequests) codes /\
  (forall c, c <> StatusTooManyRequests -> (c ∈ init codes <-> c ∈ codes)) /\
  (StatusTooManyRequests ∉ codes -> init codes = codes).
Proof.
  assert (init codes = filter (fun c => c <> StatusTooManyRequests) codes)
    as E by (unfold init; by rewrite init_loop_filter).
  rewrite E. clear E. split; [|split; [done|split]].
  - rewrite list_elem_of_filter. by intros [Hne _].
  - intros c Hc. rewrite list_elem_of_filter. tauto.
  - induction codes as [|c l IH]; [done|].
    intros [Hc Hl]%not_elem_of_cons.
    rewrite filter_cons. rewrite decide_True by done. f_equal. by apply IH.
Qed.

(** A retry list with two 429 in it. *)
Lemma init_drops_too_many_requests_witness :
  init [408; 429; 500; 502; 429; 503; 504] = [408; 500; 502; 503; 504] /\
  init [500; 502] = [500; 502].
Proof.
  split.
  - destruct (init_drops_too_many_requests [408; 429; 500; 502; 429; 503; 504])
      as (_ & E & _).
    rewrite E. reflexivity.
  - apply (init_drops_too_many_requests [500; 502]).
    intros H. repeat (apply elem_of_cons in H as [H|H]; [discriminate|]).
    by apply elem_of_nil in H.
Defined.

(** ** The group cache *)

Section GroupCache.

Variable az : AzureManager.

(** [getVMSSInfo] in full. *)
Lemma getVMSSInfo_spec w :
  getVMSSInfo az w =
  match (if groupCacheFresh w
         then scaleSets (scaleSetStatusCache w) !! Name (ss w) else None) with
  | Some status => (inl status, w)
  | None =>
      match List_ az (trace w) (ResourceGroup az) with
      | (_, Some err) => (inr err, afterList az w)
      | (allVMSS, None) =>
          (match newStatus allVMSS !! Name (ss w) with
           | Some status => inl status
           | None => inr (ErrCouldNotFindVmss (Name (ss w)))
           end,
           with_statusCache (fun _ =>
             {| lastRefresh := clock (afterList az w);
                scaleSets := newStatus allVMSS |}) (afterList az w))
      end
  end.
Proof.
  unfold getVMSSInfo, getAllVMSSInfo, groupCacheFresh, afterList. unM. simpl.
  repeat (case_match; simplify_eq/=); world_eq.
Qed.

Lemma newStatus_snoc l v :
  newStatus (l ++ [v]) = <[compute.Name v := v]> (newStatus l).
Proof. unfold newStatus. by rewrite foldl_app. Qed.

Lemma newStatus_lookup_None l k :
  newStatus l !! k = None <-> Forall (fun v => compute.Name v <> k) l.
Proof.
  induction l as [|v l IH] using rev_ind.
  - split; [constructor|intros _; apply lookup_empty].
  - rewrite newStatus_snoc, Forall_app, Forall_singleton.
    rewrite lookup_insert_None. rewrite IH. tauto.
Qed.

Lemma newStatus_lookup_last l1 v l2 :
  Forall (fun v' => compute.Name v' <> compute.Name v) l2 ->
  newStatus (l1 ++ v :: l2) !! compute.Name v = Some v.
Proof.
  induction l2 as [|v' l2 IH] using rev_ind; intros H.
  - rewrite newStatus_snoc. by rewrite lookup_insert_eq.
  - apply Forall_app in H as [H1 H2]. rewrite Forall_singleton in H2.
    rewrite app_comm_cons, app_assoc, newStatus_snoc.
    rewrite lookup_insert_ne by done. by apply IH.
Qed.

Lemma newStatus_lookup_Some l k v :
  newStatus l !! k = Some v -> v ∈ l /\ compute.Name v = k.
Proof.
  induction l as [|v' l IH] using rev_ind; [done|].
  rewrite newStatus_snoc. destruct (decide (compute.Name v' = k)) as [<-|Hne].
  - rewrite lookup_insert_eq. intros [= <-]. split; [|done].
    apply elem_of_app. right. by left.
  - rewrite lookup_insert_ne by done. intros H. apply IH in H as [H1 H2].
    split; [|done]. apply elem_of_app. by left.
Qed.

(** A descriptor handed out by [getVMSSInfo] is the entry of the group
    cache under the name of the receiver. *)
Lemma getVMSSInfo_entry w info w1 :
  getVMSSInfo az w = (inl info, w1) ->
  scaleSets (scaleSetStatusCache w1) !! Name (ss w1) = Some info.
Proof.
  rewrite getVMSSInfo_spec.
  destruct (if groupCacheFresh w then _ else _) as [status|] eqn:C.
  - intros [= <- <-]. by destruct (groupCacheFresh w).
  - destruct (List_ az _ _) as [all [e|]]; [done|].
    destruct (newStatus all !! Name (ss w)) eqn:L; [|done].
    by intros [= <- <-].
Qed.

End GroupCache.

(** X2.  A fresh group cache that knows the receiver answers
    [getVMSSInfo] by itself: the cached descriptor is returned and the
    world is exactly as before, so no backend call is made. *)
Theorem getVMSSInfo_cache_hit
    (az : AzureManager) (w : World) (status : compute.VirtualMachineScaleSet) :
  clock w - lastRefresh (scaleSetStatusCache w) < sizeRefreshPeriod (ss w) ->
  scaleSets (scaleSetStatusCache w) !! Name (ss w) = Some status ->
  getVMSSInfo az w = (inl status, w).
Proof.
  intros F L. rewrite getVMSSInfo_spec.
  assert (groupCacheFresh w = true) as ->.
  { unfold groupCacheFresh, Time_After, Time_Add. apply Z.ltb_lt. lia. }
  by rewrite L.
Qed.

Lemma getVMSSInfo_cache_hit_witness :
  getVMSSInfo Scenario.healthy Scenario.steady
  = (inl (Scenario.vmss "vmss-a" 2), Scenario.steady).
Proof.
  apply getVMSSInfo_cache_hit.
  - vm_compute. reflexivity.
  - vm_compute. reflexivity.
Defined.

(** X3.  When the group cache is out of date, or does not know the
    receiver, [getVMSSInfo] makes one list call.
    - If the call fails, its error is returned and the group cache is
      left as it was, timestamp included.
    - If it succeeds, the whole map is replaced by the groups listed
      (a group that is no longer listed is gone) and stamped with the
      time after the call; the answer is the descriptor listed under the
      receiver's name, or the error [could not find vmss] when there is
      none, the cache having been replaced all the same. *)
Theorem getVMSSInfo_refresh (az : AzureManager) (w : World) :
  (groupCacheFresh w = false \/
   scaleSets (scaleSetStatusCache w) !! Name (ss w) = None) ->
  trace (snd (getVMSSInfo az w))
  = trace w ++ [ {| ev_call := VMSS_List (ResourceGroup az);
                    ev_held := statusCacheMutex :: held w;
                    ev_time := clock w |} ] /\
  (forall err,
     snd (List_ az (trace w) (ResourceGroup az)) = Some err ->
     fst (getVMSSInfo az w) = inr err /\
     scaleSetStatusCache (snd (getVMSSInfo az w)) = scaleSetStatusCache w) /\
  (forall allVMSS,
     List_ az (trace w) (ResourceGroup az) = (allVMSS, None) ->
     let w1 := snd (getVMSSInfo az w) in
     scaleSets (scaleSetStatusCache w1) = newStatus allVMSS /\
     lastRefresh (scaleSetStatusCache w1) = clock w1 /\
     (forall status,
        newStatus allVMSS !! Name (ss w) = Some status ->
        fst (getVMSSInfo az w) = inl status) /\
     (newStatus allVMSS !! Name (ss w) = None ->
      fst (getVMSSInfo az w) = inr (ErrCouldNotFindVmss (Name (ss w))))).
Proof.
  intros H. rewrite getVMSSInfo_spec.
  assert ((if groupCacheFresh w
           then scaleSets (scaleSetStatusCache w) !! Name (ss w) else None)
          = None) as ->.
  { destruct H as [->| ->]; [done|]. by destruct (groupCacheFresh w). }
  destruct (List_ az (trace w) (ResourceGroup az)) as [all [e|]] eqn:L;
    simpl; (split; [done|]); split.
  - intros err [= <-]. done.
  - intros all' [=].
  - intros err [=].
  - intros all' [= <-]. simpl. repeat split; try done.
    + by intros status ->.
    + by intros ->.
Qed.

(** The backend lists [vmss-a] and [vmss-b]; the driver of a group
    [vmss-c] gets the error, and the cache has been replaced. *)
Lemma getVMSSInfo_refresh_witness :
  fst (getVMSSInfo Scenario.healthy
         (with_ss (with_Name "vmss-c") Scenario.stale))
  = inr (ErrCouldNotFindVmss "vmss-c") /\
  lastRefresh (scaleSetStatusCache
                 (snd (getVMSSInfo Scenario.healthy
                         (with_ss (with_Name "vmss-c") Scenario.stale))))
  = 1026 * Second.
Proof.
  destruct (getVMSSInfo_refresh Scenario.healthy
              (with_ss (with_Name "vmss-c") Scenario.stale))
    as (_ & _ & H); [left; reflexivity|].
  destruct (H _ eq_refl) as (_ & R & _ & N).
  split.
  - apply N. vm_compute. reflexivity.
  - rewrite R. vm_compute. reflexivity.
Defined.

(** X4.  The map built from a list answer keeps, for each name, the
    last descriptor listed under it: a name has no entry exactly when no
    descriptor carries it, and a descriptor after which its name does
    not occur again is the entry of that name. *)
Theorem newStatus_last_wins
    (before after : list compute.VirtualMachineScaleSet)
    (v : compute.VirtualMachineScaleSet) (k : string) :
  (newStatus before !! k = None <->
   Forall (fun v' => compute.Name v' <> k) before) /\
  (Forall (fun v' => compute.Name v' <> compute.Name v) after ->
   newStatus (before ++ v :: after) !! compute.Name v = Some v) /\
  (forall v', newStatus before !! k = Some v' ->
              v' ∈ before /\ compute.Name v' = k).
Proof.
  split; [apply newStatus_lookup_None|].
  split; [apply newStatus_lookup_last|].
  intros v'. apply newStatus_lookup_Some.
Qed.

(** Two descriptors for [vmss-a]: the later one is kept. *)
Lemma newStatus_last_wins_witness :
  newStatus [Scenario.vmss "vmss-a" 2; Scenario.vmss "vmss-b" 1;
             Scenario.vmss "vmss-a" 7] !! "vmss-a"
  = Some (Scenario.vmss "vmss-a" 7).
Proof.
  destruct (newStatus_last_wins
              [Scenario.vmss "vmss-a" 2; Scenario.vmss "vmss-b" 1] []
              (Scenario.vmss "vmss-a" 7) "vmss-a") as (_ & H & _).
  apply H. constructor.
Defined.

(** X5.  What [getCurSize] hands back.  With an error the value is
    always [-1], the error is not a throttling error, and the set is
    exactly as it was: neither [curSize] nor [lastSizeRefresh] has been
    written, so the next call tries the backend again.  Without an error
    the value is the [curSize] now cached, and if a refresh was due
    [lastSizeRefresh] is the current time. *)
Theorem getCurSize_result
    (az : AzureManager) (w : World) (v : Z) (err : error) (w1 : World) :
  getCurSize az w = ((v, err), w1) ->
  (forall e, err = Some e ->
     v = -1 /\ isAzureRequestsThrottled az e = false /\ ss w1 = ss w /\
     sizeCacheFresh w = false) /\
  (err = None ->
     v = curSize (ss w1) /\
     (sizeCacheFresh w = false -> lastSizeRefresh (ss w1) = clock w1)).
Proof.
  destruct (sizeCacheFresh w) eqn:F.
  - rewrite getCurSize_fresh by done. intros [= <- <- <-]. by split.
  - rewrite getCurSize_stale by done.
    destruct (getVMSSInfo az _) as [[set|e] w'] eqn:E.
    + simpl. intros [= <- <- <-]. split; [done|]. intros _.
      by destruct (curSize (ss w') =? _).
    + apply getVMSSInfo_frame in E as (Hs & _).
      destruct (isAzureRequestsThrottled az e) eqn:T.
      * intros [= <- <- <-]. split; [done|]. intros _. by split.
      * intros [= <- <- <-]. split; [|done].
        intros e' [= <-]. by repeat split.
Qed.

(** The list call fails with a conflict: [-1] and the error come back
    and the cached size 2 stays. *)
Lemma getCurSize_result_witness :
  fst (getCurSize Cases.conflicting Scenario.stale)
  = (-1, Some (DetailedError 409 "conflict")) /\
  curSize (ss (snd (getCurSize Cases.conflicting Scenario.stale))) = 2.
Proof.
  destruct (getCurSize Cases.conflicting Scenario.stale)
    as [[v err] w1] eqn:E.
  destruct (getCurSize_result Cases.conflicting Scenario.stale v err w1 E)
    as [H _].
  assert (err = Some (DetailedError 409 "conflict")) as He.
  { change err with (snd (fst ((v, err), w1))). rewrite <- E.
    vm_compute. reflexivity. }
  destruct (H _ He) as (-> & _ & S & _).
  simpl. rewrite S, He. split; reflexivity.
Defined.

(** ** The capacity update *)

Section CapacityUpdate.

Variable az : AzureManager.

(** The two ways [SetScaleSetSize] ends. *)
Lemma SetScaleSetSize_cases size w r w' :
  SetScaleSetSize az size w = (r, w') ->
  held w' = held w /\
  ((r = None /\
    ss w' = with_lastSizeRefresh (clock w') (with_curSize size (ss w)) /\
    exists future,
      goroutines w' = goroutines w ++ [go_waitForUpdateVMSSCapacity future]) \/
   (exists e, r = Some e /\ ss w' = ss w /\ goroutines w' = goroutines w)).
Proof.
  unfold SetScaleSetSize. unM. simpl. rewrite updateVMSSCapacity_spec.
  destruct (getVMSSInfo az _) as [[info|err] w1] eqn:E;
    apply getVMSSInfo_frame in E as (Hs & Hh & Hg & _); simpl in *.
  - destruct (CreateOrUpdateAsync az _ _ _ _) as [future [e|]];
      intros [= <- <-]; simpl; rewrite Hh; simpl; (split; [done|]).
    + right. exists e. by rewrite Hs, Hg.
    + left. rewrite Hs, Hg. split; [done|]. split; [done|]. by exists future.
  - intros [= <- <-]. simpl. rewrite Hh. simpl. split; [done|].
    right. exists err. by rewrite Hs, Hg.
Qed.

(** The group cache after [SetScaleSetSize] has fetched the descriptor. *)
Lemma SetScaleSetSize_cache size w info w1 :
  getVMSSInfo az (with_held (sizeMutex :: held w) w) = (inl info, w1) ->
  scaleSetStatusCache (snd (SetScaleSetSize az size w))
  = {| lastRefresh := lastRefresh (scaleSetStatusCache w1);
       scaleSets := alter (with_Capacity size) (Name (ss w))
                      (scaleSets (scaleSetStatusCache w1)) |}.
Proof.
  intros E. unfold SetScaleSetSize. unM. simpl.
  rewrite updateVMSSCapacity_spec, E.
  apply getVMSSInfo_frame in E as (Hs & _). simpl in Hs. rewrite Hs.
  simpl. by destruct (CreateOrUpdateAsync az _ _ _ _) as [future [e|]].
Qed.

End CapacityUpdate.



(** X7.  A [SetScaleSetSize] that returns an error, because the
    descriptor could not be fetched or because the backend refused the
    update, has not written the set: [curSize], [lastSizeRefresh] and
    the instance cache are as before, no observer has been spawned and
    [sizeMutex] has been given back. *)
Theorem SetScaleSetSize_failure
    (az : AzureManager) (size : Z) (w w' : World) (e : GoError) :
  SetScaleSetSize az size w = (Some e, w') ->
  ss w' = ss w /\ goroutines w' = goroutines w /\ held w' = held w.
Proof.
  intros E.
  apply SetScaleSetSize_cases in E as [Hh [([=] & _)|(e' & _ & Hs & Hg)]].
  done.
Qed.

Lemma SetScaleSetSize_failure_witness :
  exists w',
    SetScaleSetSize Cases.rejecting 3 Scenario.steady
    = (Some (DetailedError 400 "bad request"), w') /\
    curSize (ss w') = 2 /\ goroutines w' = [].
Proof.
  eexists. split; [vm_compute; reflexivity|].
  edestruct (SetScaleSetSize_failure Cases.rejecting 3 Scenario.steady)
    as (Hs & Hg & _); [vm_compute; reflexivity|].
  rewrite Hs, Hg. split; reflexivity.
Defined.

(** X8.  [SetScaleSetSize] writes the requested size into the cached
    descriptor of the group before it calls the backend
    ([vmssInfo.Sku.Capacity = &size] goes through the shared [Sku]), and
    nothing takes it back.  So once the descriptor has been fetched, and
    whatever the backend then answers, the group cache holds the
    descriptor with capacity [size] under the receiver's name, every
    other entry being as [getVMSSInfo] left it; and a later [getCurSize]
    that has to refresh while the group cache is still fresh reports
    [size]. *)
Theorem SetScaleSetSize_writes_descriptor
    (az : AzureManager) (size : Z) (w w1 : World)
    (info : compute.VirtualMachineScaleSet) :
  getVMSSInfo az (with_held (sizeMutex :: held w) w) = (inl info, w1) ->
  let w' := snd (SetScaleSetSize az size w) in
  scaleSets (scaleSetStatusCache w') !! Name (ss w)
  = Some (with_Capacity size info) /\
  (forall k, k <> Name (ss w) ->
     scaleSets (scaleSetStatusCache w') !! k
     = scaleSets (scaleSetStatusCache w1) !! k) /\
  (forall d,
     sizeCacheFresh (elapse d w') = false ->
     groupCacheFresh (elapse d w') = true ->
     fst (getCurSize az (elapse d w')) = (size, None)).
Proof.
  intros E w'.
  pose proof (SetScaleSetSize_cache az size w info w1 E) as C.
  pose proof (getVMSSInfo_entry az _ _ _ E) as L.
  pose proof (getVMSSInfo_frame az _ _ _ E) as (Hs & _). simpl in Hs.
  rewrite Hs in L.
  assert (scaleSets (scaleSetStatusCache w') !! Name (ss w)
          = Some (with_Capacity size info)) as Hentry.
  { unfold w'. rewrite C. simpl. rewrite lookup_alter_eq. by rewrite L. }
  assert (Name (ss w') = Name (ss w)) as Hn.
  { unfold w'. destruct (SetScaleSetSize az size w) as [r w2] eqn:S. simpl.
    apply SetScaleSetSize_cases in S
      as [_ [(_ & Hs2 & _)|(e & _ & Hs2 & _)]]; by rewrite Hs2. }
  split; [done|]. split.
  - intros k Hk. unfold w'. rewrite C. simpl. by rewrite lookup_alter_ne.
  - intros d Fs Fg. rewrite (getCurSize_stale az _ Fs).
    rewrite getVMSSInfo_spec.
    change (groupCacheFresh (with_held _ (elapse d w')))
      with (groupCacheFresh (elapse d w')).
    rewrite Fg. simpl. rewrite Hn, Hentry. simpl.
    by destruct (curSize (ss w') =? size).
Qed.

(** The size cache and the group cache are both out of date, the
    backend lists the group at capacity 2 and refuses the update to 3:
    the next [TargetSize] answers 3. *)
Lemma SetScaleSetSize_writes_descriptor_witness :
  fst (SetScaleSetSize Cases.rejecting 3 Scenario.stale)
  = Some (DetailedError 400 "bad request") /\
  fst (TargetSize Cases.rejecting
         (snd (SetScaleSetSize Cases.rejecting 3 Scenario.stale)))
  = (3, None).
Proof.
  split; [vm_compute; reflexivity|].
  edestruct (SetScaleSetSize_writes_descriptor Cases.rejecting 3
               Scenario.stale) as (_ & _ & H); [vm_compute; reflexivity|].
  specialize (H 0 ltac:(vm_compute; reflexivity) ltac:(vm_compute; reflexivity)).
  unfold TargetSize, GetScaleSetSize. unM.
  destruct (getCurSize Cases.rejecting
              (snd (SetScaleSetSize Cases.rejecting 3 Scenario.stale)))
    as [r w2] eqn:E.
  assert (r = (3, None)) as ->.
  { change r with (fst (r, w2)). rewrite <- E. rewrite <- H.
    vm_compute. reflexivity. }
  reflexivity.
Defined.

(** X9.  A successful [IncreaseSize] never leaves the cached size above
    the maximum: [delta] was positive, the size read was not the
    sentinel, and the new [curSize] is that size plus [delta], at most
    [maxSize]. *)
Theorem IncreaseSize_success_bound
    (az : AzureManager) (delta : Z) (w w' : World) :
  IncreaseSize az delta w = (None, w') ->
  0 < delta /\
  curSize (ss w') <= maxSize (ss w') /\
  maxSize (ss w') = maxSize (ss w) /\
  exists size,
    fst (fst (GetScaleSetSize az w)) = size /\ size <> -1 /\
    curSize (ss w') = add64 size delta.
Proof.
  unfold IncreaseSize.
  destruct (Z.leb_spec delta 0) as [|Hd]; [done|].
  unM. destruct (GetScaleSetSize az w) as [[size [e|]] w1] eqn:E; [done|].
  simpl.
  pose proof (getCurSize_frame az w _ _ E) as (_ & _ & Hm & _).
  destruct (Z.eqb_spec size (-1)) as [|Hne]; [done|].
  destruct (Z.ltb_spec (maxSize (ss w1)) (add64 size delta)) as [|Hle];
    [done|].
  intros S.
  apply SetScaleSetSize_cases in S as [_ [(_ & Hs & _)|(e & [=] & _)]].
  rewrite Hs. simpl. repeat split; try done; try lia.
  by exists size.
Qed.

Lemma IncreaseSize_success_bound_witness :
  exists w',
    IncreaseSize Scenario.healthy 1 Scenario.steady = (None, w') /\
    curSize (ss w') = 3 /\ maxSize (ss w') = 3.
Proof.
  eexists. split; [vm_compute; reflexivity|].
  edestruct (IncreaseSize_success_bound Scenario.healthy 1 Scenario.steady)
    as (_ & _ & M & size & Hsz & _ & C); [vm_compute; reflexivity|].
  rewrite C, M, <- Hsz. split; reflexivity.
Defined.

(** ** Reading the nodes *)

Section ReadingNodes.

Variable az : AzureManager.

(** [Nodes] after the size read, in full. *)
Lemma Nodes_spec w :
  Nodes az w =
  match getCurSize az w with
  | ((_, Some err), w1) => (([], Some err), w1)
  | ((size, None), w1) =>
      if instanceCacheValid size w1
      then ((instanceCache (ss w1), None), w1)
      else
        match VMs_List az (trace w1) (ResourceGroup az) (Name (ss w1)) with
        | (_, Some err) =>
            if isAzureRequestsThrottled az err
            then ((instanceCache (ss w1), None),
                  with_ss (with_lastInstanceRefresh
                             (clock (afterVMsList az w1)))
                    (afterVMsList az w1))
            else (([], Some err), afterVMsList az w1)
        | (vms, None) =>
            ((buildInstanceCache az vms, None),
             with_ss (with_lastInstanceRefresh (clock (afterVMsList az w1)))
               (with_ss (with_instanceCache (buildInstanceCache az vms))
                  (afterVMsList az w1)))
        end
  end.
Proof.
  unfold Nodes. unM.
  destruct (getCurSize az w) as [[size [e|]] w1]; [done|].
  unfold instanceCacheValid, instanceCacheFresh, GetScaleSetVms, afterVMsList.
  unM. simpl.
  repeat (case_match; simplify_eq/=); world_eq.
Qed.

(** A size read that differs from the size cached before it has put
    the instance cache out of date. *)
Lemma getCurSize_changed w size w1 :
  getCurSize az w = ((size, None), w1) ->
  size <> curSize (ss w) ->
  instanceCacheFresh w1 = false.
Proof.
  destruct (sizeCacheFresh w) eqn:F.
  - rewrite getCurSize_fresh by done. by intros [= <- <-].
  - rewrite getCurSize_stale by done.
    destruct (getVMSSInfo az _) as [[set|e] w'] eqn:E;
      apply getVMSSInfo_frame in E as (Hs & _); simpl in Hs.
    + simpl. intros [= <- <-]. rewrite Hs.
      destruct (Z.eqb_spec (curSize (ss w))
                  (compute.Capacity (compute.sku set))) as [->|Hne]; [done|].
      intros _. unfold instanceCacheFresh, Time_After, Time_Add. simpl.
      apply Z.ltb_ge. lia.
    + destruct (isAzureRequestsThrottled az e); [|done].
      intros [= <- <-]. by rewrite Hs.
Qed.

End ReadingNodes.

(** X10.  [Nodes] answers from the instance cache only when the cache
    is as long as the size just read and is not older than the refresh
    period; the list it returns then has exactly that size and nothing
    happens after the size read.  When the size read fails, its error
    is returned with an empty list and the VMs are not listed.  In
    every other case exactly one VM list call follows the size read,
    made under [instanceMutex] alone. *)
Theorem Nodes_from_cache
    (az : AzureManager) (w : World) (size : Z) (err : error) (w1 : World) :
  getCurSize az w = ((size, err), w1) ->
  (forall e, err = Some e -> Nodes az w = (([], Some e), w1)) /\
  (err = None -> instanceCacheValid size w1 = true ->
   Nodes az w = ((instanceCache (ss w1), None), w1) /\
   Z.of_nat (length (instanceCache (ss w1))) = size) /\
  (err = None -> instanceCacheValid size w1 = false ->
   trace (snd (Nodes az w))
   = trace w1 ++ [ {| ev_call := VMSSVMs_List (ResourceGroup az)
                                   (Name (ss w1));
                      ev_held := instanceMutex :: held w1;
                      ev_time := clock w1 |} ]).
Proof.
  intros E. rewrite Nodes_spec, E. split; [|split].
  - by intros e ->.
  - intros -> V. rewrite V. split; [done|].
    unfold instanceCacheValid in V. apply andb_true_iff in V as [V _].
    by apply Z.eqb_eq in V.
  - intros -> V. rewrite V.
    destruct (VMs_List az _ _ _) as [vms [e|]]; [|done].
    by destruct (isAzureRequestsThrottled az e).
Qed.

(** The cache of two instances serves a size of 2; at size 3 the VMs are
    listed. *)
Lemma Nodes_from_cache_witness :
  Nodes Scenario.healthy Scenario.steady
  = ((instanceCache (ss Scenario.steady), None), Scenario.steady) /\
  map ev_call
    (trace (snd (Nodes Scenario.healthy
                   (with_ss (with_curSize 3) Scenario.steady))))
  = [VMSSVMs_List "rg" "vmss-a"].
Proof.
  split.
  - edestruct (Nodes_from_cache Scenario.healthy Scenario.steady)
      as (_ & H & _); [vm_compute; reflexivity|].
    apply H; [reflexivity|vm_compute; reflexivity].
  - edestruct (Nodes_from_cache Scenario.healthy
                 (with_ss (with_curSize 3) Scenario.steady))
      as (_ & _ & H); [vm_compute; reflexivity|].
    rewrite H; [reflexivity|reflexivity|vm_compute; reflexivity].
Defined.

(** X11.  What the VM list call of [Nodes] leads to.
    - Success: the instance cache is rebuilt from the answer and stamped
      with the time after the call, and the rebuilt cache is returned.
    - Throttled: the instances cached before are returned without an
      error and only the timestamp is written, so the next call within
      the period does not list again because of age.
    - Any other error: it is returned with an empty list, and neither
      the instances nor the timestamp are written. *)
Theorem Nodes_refresh
    (az : AzureManager) (w : World) (size : Z) (w1 : World) :
  getCurSize az w = ((size, None), w1) ->
  instanceCacheValid size w1 = false ->
  let answer := VMs_List az (trace w1) (ResourceGroup az) (Name (ss w1)) in
  let w2 := snd (Nodes az w) in
  (forall vms,
     answer = (vms, None) ->
     fst (Nodes az w) = (buildInstanceCache az vms, None) /\
     instanceCache (ss w2) = buildInstanceCache az vms /\
     lastInstanceRefresh (ss w2) = clock w2) /\
  (forall e,
     snd answer = Some e -> isAzureRequestsThrottled az e = true ->
     fst (Nodes az w) = (instanceCache (ss w1), None) /\
     instanceCache (ss w2) = instanceCache (ss w1) /\
     lastInstanceRefresh (ss w2) = clock w2) /\
  (forall e,
     snd answer = Some e -> isAzureRequestsThrottled az e = false ->
     fst (Nodes az w) = ([], Some e) /\
     ss w2 = ss w1).
Proof.
  intros E V. simpl. rewrite Nodes_spec, E, V.
  destruct (VMs_List az _ _ _) as [vms [e|]]; simpl.
  - split; [intros vms' [=]|]. split.
    + intros e' [= <-] T. by rewrite T.
    + intros e' [= <-] T. by rewrite T.
  - split; [by intros vms' [= <-]|]. split; intros e' [=].
Qed.

(** The VM list is throttled while the size has moved to 3: the two
    cached instances come back. *)
Lemma Nodes_refresh_witness :
  fst (Nodes Cases.vmsThrottled (with_ss (with_curSize 3) Scenario.steady))
  = (instanceCache (ss Scenario.steady), None).
Proof.
  edestruct (Nodes_refresh Cases.vmsThrottled
               (with_ss (with_curSize 3) Scenario.steady))
    as (_ & H & _);
    [vm_compute; reflexivity|vm_compute; reflexivity|].
  edestruct (H Scenario.throttled) as (R & _);
    [reflexivity|reflexivity|].
  rewrite R. reflexivity.
Defined.

(** X12.  Whenever the size [Nodes] reads differs from the size that
    was cached before the call, the instance cache is not used: the VMs
    are listed. *)
Theorem Nodes_lists_after_size_change
    (az : AzureManager) (w : World) (size : Z) (w1 : World) :
  getCurSize az w = ((size, None), w1) ->
  size <> curSize (ss w) ->
  instanceCacheValid size w1 = false /\
  trace (snd (Nodes az w))
  = trace w1 ++ [ {| ev_call := VMSSVMs_List (ResourceGroup az)
                                  (Name (ss w1));
                     ev_held := instanceMutex :: held w1;
                     ev_time := clock w1 |} ].
Proof.
  intros E Hne.
  assert (instanceCacheValid size w1 = false) as V.
  { unfold instanceCacheValid.
    rewrite (getCurSize_changed az w size w1 E Hne). apply andb_false_r. }
  split; [done|].
  rewrite Nodes_spec, E, V.
  destruct (VMs_List az _ _ _) as [vms [e|]]; [|done].
  by destruct (isAzureRequestsThrottled az e).
Qed.

(** The backend now reports capacity 4 for the group cached at 2. *)
Lemma Nodes_lists_after_size_change_witness :
  map ev_call (trace (snd (Nodes Cases.grown Scenario.stale)))
  = [VMSS_List "rg"; VMSSVMs_List "rg" "vmss-a"].
Proof.
  edestruct (Nodes_lists_after_size_change Cases.grown Scenario.stale)
    as (_ & T); [vm_compute; reflexivity|vm_compute; discriminate|].
  rewrite T. reflexivity.
Defined.

(** ** Decreasing the target *)

Section Decreasing.

Variable az : AzureManager.

Lemma getVMSSInfo_clock w :
  monotoneClock az -> clock w <= clock (snd (getVMSSInfo az w)).
Proof.
  intros M. rewrite getVMSSInfo_spec.
  destruct (if groupCacheFresh w then _ else _); [simpl; lia|].
  pose proof (M (trace w) (VMSS_List (ResourceGroup az))).
  destruct (List_ az _ _) as [all [e|]]; simpl; lia.
Qed.

(** With a clock that does not go back, an instance cache that is out
    of date stays so across a size read. *)
Lemma getCurSize_keeps_stale w :
  monotoneClock az ->
  lastInstanceRefresh (ss w) + vmssInstancesRefreshPeriod <= clock w ->
  lastInstanceRefresh (ss (snd (getCurSize az w)))
    + vmssInstancesRefreshPeriod
  <= clock (snd (getCurSize az w)).
Proof.
  intros M H. destruct (sizeCacheFresh w) eqn:F.
  - by rewrite getCurSize_fresh.
  - rewrite getCurSize_stale by done.
    pose proof (getVMSSInfo_clock (with_held (sizeMutex :: held w) w) M) as C.
    destruct (getVMSSInfo az _) as [[set|e] w'] eqn:E;
      apply getVMSSInfo_frame in E as (Hs & _); simpl in *.
    + destruct (curSize (ss w') =? _); simpl; rewrite ?Hs; lia.
    + destruct (isAzureRequestsThrottled az e); simpl; rewrite Hs; lia.
Qed.

Lemma DecreaseTargetSize_spec delta w :
  DecreaseTargetSize az delta w
  = (snd (fst (getCurSize az
                 (with_ss (with_lastInstanceRefresh
                             (clock w - vmssInstancesRefreshPeriod)) w))),
     snd (getCurSize az
            (with_ss (with_lastInstanceRefresh
                        (clock w - vmssInstancesRefreshPeriod)) w))).
Proof.
  unfold DecreaseTargetSize, GetScaleSetSize.
  unfold mbind, M_bind, mret, M_ret.
  rewrite invalidateInstanceCache_spec.
  by destruct (getCurSize az _) as [[v e] w1].
Qed.

End Decreasing.

(** X13.  [DecreaseTargetSize] does not resize anything.  It marks the
    instance cache out of date and reads the size: when the size cache
    is fresh that is all, without any backend call and with [curSize] as
    it was, whatever [delta] is; in general the only backend calls it
    makes are list calls, and the error it returns is that of the size
    read.  If the clock never goes back, the instance cache is out of
    date at any time after the call. *)
Theorem DecreaseTargetSize_no_resize
    (az : AzureManager) (delta : Z) (w : World) :
  let w0 := with_ss (with_lastInstanceRefresh
                       (clock w - vmssInstancesRefreshPeriod)) w in
  fst (DecreaseTargetSize az delta w) = snd (fst (getCurSize az w0)) /\
  (sizeCacheFresh w = true -> DecreaseTargetSize az delta w = (None, w0)) /\
  (exists evs,
     trace (snd (DecreaseTargetSize az delta w)) = trace w ++ evs /\
     Forall (fun e => is_list_call e = true) evs) /\
  (monotoneClock az ->
   forall d, 0 <= d ->
     instanceCacheFresh (elapse d (snd (DecreaseTargetSize az delta w)))
     = false).
Proof.
  intros w0. rewrite DecreaseTargetSize_spec. fold w0. simpl.
  split; [done|]. split; [|split].
  - intros F. by rewrite getCurSize_fresh.
  - destruct (getCurSize az w0) as [r w1] eqn:E.
    apply getCurSize_frame in E as (_ & _ & _ & _ & _ & _ & _ & _ & H).
    exact H.
  - intros M d Hd.
    pose proof (getCurSize_keeps_stale az w0 M) as K.
    unfold instanceCacheFresh, elapse, Time_After, Time_Add. simpl.
    apply Z.ltb_ge. simpl in K. lia.
Qed.

Lemma DecreaseTargetSize_no_resize_witness :
  DecreaseTargetSize Scenario.healthy (-1) Scenario.steady
  = (None,
     with_ss (with_lastInstanceRefresh (705 * Second)) Scenario.steady) /\
  instanceCacheFresh
    (elapse Second
       (snd (DecreaseTargetSize Scenario.healthy (-1) Scenario.stale)))
  = false.
Proof.
  split.
  - apply (DecreaseTargetSize_no_resize Scenario.healthy (-1) Scenario.steady).
    vm_compute. reflexivity.
  - apply (DecreaseTargetSize_no_resize Scenario.healthy (-1) Scenario.stale).
    + intros h c. vm_compute. discriminate.
    + vm_compute. discriminate.
Defined.

(** ** Membership *)

(** X14.  [Belongs] never writes the world, and
    - an error of the manager's lookup is returned, with [false];
    - a provider id the manager resolves to no group is an error that
      names the node, not the answer [false];
    - a provider id resolved to a group gives no error, and the answer
      is [true] exactly when the group's id and the receiver's name are
      the same up to the case of their letters. *)
Theorem Belongs_answers (az : AzureManager) (node : apiv1.Node) (w : World) :
  snd (Belongs az node w) = w /\
  (forall e,
     snd (GetAsgForInstance az (refOf node)) = Some e ->
     fst (Belongs az node w) = (false, Some e)) /\
  (GetAsgForInstance az (refOf node) = (None, None) ->
   fst (Belongs az node w)
   = (false, Some (ErrDoesntBelongToKnownScaleSet (apiv1.Name node)))) /\
  (forall asg,
     GetAsgForInstance az (refOf node) = (Some asg, None) ->
     (ToLower (ng_Id asg) = ToLower (Name (ss w)) ->
      fst (Belongs az node w) = (true, None)) /\
     (ToLower (ng_Id asg) <> ToLower (Name (ss w)) ->
      fst (Belongs az node w) = (false, None))).
Proof.
  unfold Belongs, refOf. simpl.
  destruct (GetAsgForInstance az _) as [[asg|] [e|]]; unM; simpl.
  - split; [done|]. split; [by intros e' [= <-]|].
    split; [intros [=]|intros asg' [=]].
  - destruct (EqualFold (ng_Id asg) (Name (ss w))) eqn:F; simpl;
      (split; [done|]); (split; [intros e' [=]|]);
      (split; [intros [=]|]); intros asg' [= <-].
    + apply EqualFold_true in F. split; [done|]. intros N. by destruct N.
    + split; [|done]. intros T%EqualFold_true. congruence.
  - split; [done|]. split; [by intros e' [= <-]|].
    split; [intros [=]|intros asg' [=]].
  - split; [done|]. split; [intros e' [=]|].
    split; [done|intros asg' [=]].
Qed.

(** The driver is named [VMSS-A] and the node's group [vmss-a]. *)
Lemma Belongs_answers_witness :
  fst (Belongs Scenario.healthy Scenario.nodeA0
         (with_ss (with_Name "VMSS-A") Scenario.steady)) = (true, None) /\
  fst (Belongs Scenario.healthy Scenario.nodeB0 Scenario.steady)
  = (false, None) /\
  fst (Belongs Scenario.healthy
         {| apiv1.Name := "node-x"; apiv1.ProviderID := "azure://other/7" |}
         Scenario.steady)
  = (false, Some (ErrDoesntBelongToKnownScaleSet "node-x")).
Proof.
  split; [|split].
  - destruct (Belongs_answers Scenario.healthy Scenario.nodeA0
                (with_ss (with_Name "VMSS-A") Scenario.steady))
      as (_ & _ & _ & H).
    apply (H Scenario.groupA); reflexivity.
  - destruct (Belongs_answers Scenario.healthy Scenario.nodeB0 Scenario.steady)
      as (_ & _ & _ & H).
    apply (H Scenario.groupB); [reflexivity|discriminate].
  - apply (Belongs_answers Scenario.healthy
             {| apiv1.Name := "node-x"; apiv1.ProviderID := "azure://other/7" |}
             Scenario.steady).
    reflexivity.
Defined.

(** ** Looking up an instance *)

Lemma findInstance_app id l1 l2 :
  Forall (fun i => cloudprovider.Id i <> id) l1 ->
  findInstance id (l1 ++ l2) = findInstance id l2.
Proof.
  induction l1 as [|i l IH]; intros H; simpl; [done|].
  apply Forall_cons in H as [Hi Hl].
  destruct (String.eqb_spec (cloudprovider.Id i) id); [done|]. by apply IH.
Qed.

(** X15.  [getInstanceByProviderID] reads the cache without writing the
    world.  It reports [found] exactly when some cached instance has
    the id asked for, and then returns the first such instance; when
    none has it, it returns the zero instance with [false]. *)
Theorem getInstanceByProviderID_lookup (providerID : string) (w : World) :
  getInstanceByProviderID providerID w
  = (findInstance providerID (instanceCache (ss w)), w) /\
  (snd (findInstance providerID (instanceCache (ss w))) = true <->
   exists i, i ∈ instanceCache (ss w) /\ cloudprovider.Id i = providerID) /\
  (forall l1 i l2,
     instanceCache (ss w) = l1 ++ i :: l2 ->
     cloudprovider.Id i = providerID ->
     Forall (fun j => cloudprovider.Id j <> providerID) l1 ->
     findInstance providerID (instanceCache (ss w)) = (i, true)) /\
  (snd (findInstance providerID (instanceCache (ss w))) = false ->
   fst (findInstance providerID (instanceCache (ss w))) = zeroInstance).
Proof.
  split; [apply getInstanceByProviderID_spec|].
  generalize (instanceCache (ss w)) as cache. intros cache.
  split; [|split].
  - induction cache as [|i l IH]; simpl.
    + split; [done|]. intros (i & Hi & _). by apply elem_of_nil in Hi.
    + destruct (String.eqb_spec (cloudprovider.Id i) providerID) as [E|E];
        simpl.
      * split; [|done]. intros _. exists i. split; [by left|done].
      * rewrite IH. split.
        -- intros (j & Hj & Ej). exists j. split; [by right|done].
        -- intros (j & Hj & Ej). exists j. split; [|done].
           apply elem_of_cons in Hj as [->|Hj]; done.
  - intros l1 i l2 -> Ei Hl. rewrite findInstance_app by done. simpl.
    by rewrite Ei, String.eqb_refl.
  - induction cache as [|i l IH]; simpl; [done|].
    destruct (String.eqb (cloudprovider.Id i) providerID); [done|]. apply IH.
Qed.

Lemma getInstanceByProviderID_lookup_witness :
  getInstanceByProviderID "azure://vmss-a/1" Scenario.steady
  = (({| cloudprovider.Id := "azure://vmss-a/1";
         cloudprovider.Status := Scenario.deleting |}, true),
     Scenario.steady) /\
  findInstance "azure://vmss-a/9" (instanceCache (ss Scenario.steady))
  = (zeroInstance, false).
Proof.
  destruct (getInstanceByProviderID_lookup "azure://vmss-a/1" Scenario.steady)
    as (E & _ & F & _).
  destruct (getInstanceByProviderID_lookup "azure://vmss-a/9" Scenario.steady)
    as (_ & _ & _ & Z).
  split.
  - rewrite E.
    rewrite (F [ {| cloudprovider.Id := "azure://vmss-a/0";
                    cloudprovider.Status := Scenario.running |} ]
               {| cloudprovider.Id := "azure://vmss-a/1";
                  cloudprovider.Status := Scenario.deleting |} []);
      first [reflexivity | constructor; [discriminate|constructor]].
  - specialize (Z eq_refl).
    destruct (findInstance "azure://vmss-a/9"
                (instanceCache (ss Scenario.steady))) as [i b] eqn:Q.
    simpl in Z. subst i. f_equal.
    change b with (snd (zeroInstance, b)). rewrite <- Q. reflexivity.
Defined.

(** X16.  The rebuilt cache can be asked for what went into it.  Every
    id in it carries the prefix [azure://], and it is never longer than
    the raw list.  A VM with a non-empty id that normalises to
    [resourceID] is found under ["azure://" + resourceID]; the instance
    found carries the status of that VM when no VM before it in the raw
    list normalises to the same id. *)
Theorem buildInstanceCache_lookup
    (az : AzureManager) (before after : list compute.VirtualMachineScaleSetVM)
    (vm : compute.VirtualMachineScaleSetVM) (resourceID : string) :
  compute.ID vm <> "" ->
  convertResourceGroupNameToLower az (compute.ID vm) = (resourceID, None) ->
  let cache := buildInstanceCache az (before ++ vm :: after) in
  snd (findInstance ("azure://" +:+ resourceID) cache) = true /\
  cloudprovider.Id (fst (findInstance ("azure://" +:+ resourceID) cache))
  = "azure://" +:+ resourceID /\
  (Forall (fun v => convertResourceGroupNameToLower az (compute.ID v)
                    <> (resourceID, None)) before ->
   findInstance ("azure://" +:+ resourceID) cache
   = ({| cloudprovider.Id := "azure://" +:+ resourceID;
         cloudprovider.Status := instanceStatusFromVM vm |}, true)) /\
  Forall (fun i => exists r, cloudprovider.Id i = "azure://" +:+ r) cache /\
  (length cache <= length (before ++ vm :: after))%nat.
Proof.
  intros Hne Hc cache.
  assert (cache = buildInstanceCache az before
                  ++ {| cloudprovider.Id := "azure://" +:+ resourceID;
                        cloudprovider.Status := instanceStatusFromVM vm |}
                  :: buildInstanceCache az after) as Hcache.
  { unfold cache. rewrite buildInstanceCache_app. simpl. rewrite Hc.
    destruct (String.length (compute.ID vm) =? 0)%nat eqn:L; [|done].
    by apply length_zero_empty in L. }
  assert (forall l,
            Forall (fun i => exists r, cloudprovider.Id i = "azure://" +:+ r)
                   (buildInstanceCache az l) /\
            (length (buildInstanceCache az l) <= length l)%nat) as Hall.
  { induction l as [|v l [IH1 IH2]]; simpl; [split; [constructor|lia]|].
    destruct (String.length (compute.ID v) =? 0)%nat; [split; [done|lia]|].
    destruct (convertResourceGroupNameToLower az (compute.ID v)) as [r [e|]];
      [split; [done|lia]|].
    split; [|simpl; lia]. constructor; [exists r; reflexivity|done]. }
  assert (snd (findInstance ("azure://" +:+ resourceID) cache) = true
          /\ cloudprovider.Id
               (fst (findInstance ("azure://" +:+ resourceID) cache))
             = "azure://" +:+ resourceID) as [Hfound Hid].
  { rewrite Hcache.
    generalize (buildInstanceCache az before) as l. intros l.
    induction l as [|i l IH]; simpl.
    - rewrite String.eqb_refl. by split.
    - destruct (String.eqb_spec (cloudprovider.Id i)
                  ("azure://" +:+ resourceID)) as [E|E]; [by split|].
      apply IH. }
  split; [done|]. split; [done|]. split; [|apply Hall].
  intros HF. rewrite Hcache. rewrite findInstance_app.
  - simpl. by rewrite String.eqb_refl.
  - clear -HF. induction before as [|v l IH]; simpl; [constructor|].
    apply Forall_cons in HF as [Hv Hl].
    destruct (String.length (compute.ID v) =? 0)%nat; [by apply IH|].
    destruct (convertResourceGroupNameToLower az (compute.ID v))
      as [r [e|]] eqn:C; [by apply IH|].
    constructor; [|by apply IH]. simpl. intros E. apply Hv.
    f_equal. by simplify_eq.
Qed.

Lemma buildInstanceCache_lookup_witness :
  findInstance "azure:///rg/vmss-a/2"
    (buildInstanceCache Scenario.healthy
       [ {| compute.ID := "/RG/vmss-a/0";
            compute.ProvisioningState := Some "Succeeded" |};
         {| compute.ID := "/RG/vmss-a/2";
            compute.ProvisioningState := Some "Deleting" |} ])
  = ({| cloudprovider.Id := "azure:///rg/vmss-a/2";
        cloudprovider.Status := Scenario.deleting |}, true).
Proof.
  edestruct (buildInstanceCache_lookup Scenario.healthy
    [ {| compute.ID := "/RG/vmss-a/0";
         compute.ProvisioningState := Some "Succeeded" |} ] []
    {| compute.ID := "/RG/vmss-a/2";
       compute.ProvisioningState := Some "Deleting" |})
    as (_ & _ & H & _); [discriminate|reflexivity|].
  apply H. constructor; [discriminate|constructor].
Defined.

(** ** Failure and footprint of the deletions *)

Section DeletingMore.

Variable az : AzureManager.

(** The world right after the delete call. *)
Lemma DeleteInstances_cases instances w o w' :
  DeleteInstances az instances w = (o, w') ->
  w' = w \/
  exists common ids,
    ids <> [] /\
    ids = map (segment az) (eligible w instances) /\
    let answer := DeleteInstancesAsync az (trace w) (ResourceGroup az)
                    (ng_Id common) ids in
    let called :=
      with_clock (clock w + latency az (trace w) (deleteCall az common ids))
        (with_trace
           (trace w ++ [ {| ev_call := deleteCall az common ids;
                            ev_held := instanceMutex :: held w;
                            ev_time := clock w |} ]) w) in
    o = Returns (snd answer) /\
    ((exists e, snd answer = Some e /\ w' = called) \/
     (snd answer = None /\
      w' = with_goroutines
             (goroutines w ++ [go_waitForDeleteInstances (fst answer) ids])
             (with_ss (with_curSize
                         (sub64 (curSize (ss w)) (Z.of_nat (length ids))))
                called))).
Proof.
  destruct instances as [|first rest]; [intros [= <- <-]; by left|].
  unfold DeleteInstances.
  destruct (GetAsgForInstance az first) as [common [e|]] eqn:G;
    [intros [= <- <-]; by left|].
  unM. rewrite deleteInstancesLoop_eq.
  destruct (fst (deleteInstancesLoop az common (first :: rest) [] w))
    as [ids|o'] eqn:E; [|intros [= <- <-]; by left].
  pose proof (deleteInstancesLoop_eq az common (first :: rest) [] w) as L.
  rewrite E in L.
  apply deleteInstancesLoop_Done in L as [_ Hids]. simpl in Hids.
  destruct ids as [|i ids]; [intros [= <- <-]; by left|].
  destruct common as [c|]; [|intros [= <- <-]; by left].
  simpl. intros H. right. exists c, (i :: ids).
  split; [done|]. split; [done|]. simpl.
  destruct (DeleteInstancesAsync az _ _ _ _) as [future [e|]] eqn:D;
    simpl in *; injection H as <- <-; (split; [done|]).
  - left. exists e. split; [done|]. unfold deleteCall. clear. world_eq.
  - right. split; [done|]. unfold deleteCall. clear. world_eq.
Qed.

(** When the loop of [DeleteNodes] ends with references, they are those
    of all the nodes and the world is untouched. *)
Lemma deleteNodesLoop_inl nodes refs refs' w w' :
  deleteNodesLoop az nodes refs w = (inl refs', w') ->
  w' = w /\ refs' = refs ++ map refOf nodes.
Proof.
  revert refs. induction nodes as [|n l IH]; intros refs; simpl.
  - intros [= <- <-]. by rewrite app_nil_r.
  - unM. destruct (Belongs_cases az n w) as [[_ ->]|[_ (b & err & -> & Hb)]].
    + intros H. apply IH in H as [-> ->]. by rewrite <- app_assoc.
    + simpl. destruct b, err as [e|]; simpl; try done. by destruct Hb.
Qed.

End DeletingMore.

(** X17.  [DeleteInstances] changes the set only when it succeeds.
    An empty request succeeds at once with the world untouched.  When
    the call ends in any other way than a nil error (a lookup error, a
    foreign instance, an id without a last segment, a refusal of the
    backend, a panic), [curSize], the timestamps and the instance cache
    are as before, no observer has been spawned, every lock is given
    back and the group cache is untouched; the trace is either as it was
    or longer by the one delete call that the backend refused. *)
Theorem DeleteInstances_failure
    (az : AzureManager) (instances : list azureRef) (w w' : World)
    (o : Outcome) :
  DeleteInstances az [] w = (Returns None, w) /\
  (DeleteInstances az instances w = (o, w') ->
   o <> Returns None ->
   ss w' = ss w /\
   goroutines w' = goroutines w /\
   held w' = held w /\
   scaleSetStatusCache w' = scaleSetStatusCache w /\
   (trace w' = trace w \/
    exists common ids e,
      o = Returns (Some e) /\
      snd (DeleteInstancesAsync az (trace w) (ResourceGroup az)
             (ng_Id common) ids) = Some e /\
      trace w' = trace w ++ [ {| ev_call := deleteCall az common ids;
                                 ev_held := instanceMutex :: held w;
                                 ev_time := clock w |} ])).
Proof.
  split; [done|]. intros E Ho.
  apply DeleteInstances_cases in E
    as [->|(common & ids & _ & _ & Hr & [(e & He & ->)|(Hn & _)])].
  - repeat split; try done. by left.
  - simpl. repeat split; try done. right. exists common, ids, e.
    split; [by rewrite Hr, He|]. by split.
  - rewrite Hr, Hn in Ho. done.
Qed.

(** The backend refuses the deletion of [a0]. *)
Lemma DeleteInstances_failure_witness :
  exists w',
    DeleteInstances Cases.rejecting [Scenario.a0] Scenario.steady
    = (Returns (Some (DetailedError 400 "bad request")), w') /\
    curSize (ss w') = 2 /\ goroutines w' = [] /\ held w' = [].
Proof.
  eexists. split; [vm_compute; reflexivity|].
  edestruct (DeleteInstances_failure Cases.rejecting [Scenario.a0]
               Scenario.steady) as [_ H].
  edestruct H as (Hs & Hg & Hh & _); [vm_compute; reflexivity|discriminate|].
  rewrite Hs, Hg, Hh. repeat split.
Defined.



(** ** What each operation calls, and under which locks *)

Section Footprints.

Variable az : AzureManager.

Lemma getCurSize_footprint w :
  held (snd (getCurSize az w)) = held w /\
  exists evs,
    trace (snd (getCurSize az w)) = trace w ++ evs /\
    Forall (issued_under is_list_call
              (statusCacheMutex :: sizeMutex :: held w)) evs.
Proof.
  destruct (getCurSize_events az w) as (Hh & evs & Ht & Hev & _).
  split; [done|]. exists evs. split; [done|].
  eapply Forall_impl; [exact Hev|].
  intros e [Hc Hl]. split; [|done]. unfold is_list_call. by rewrite Hc.
Qed.

Lemma SetScaleSetSize_footprint size w :
  held (snd (SetScaleSetSize az size w)) = held w /\
  exists evs,
    trace (snd (SetScaleSetSize az size w)) = trace w ++ evs /\
    Forall (fun e =>
              issued_under is_list_call
                (statusCacheMutex :: sizeMutex :: held w) e \/
              issued_under is_capacity_call (sizeMutex :: held w) e) evs.
Proof.
  destruct (SetScaleSetSize_events az size w) as (Hh & evs & Ht & Hev).
  split; [done|]. exists evs. split; [done|].
  eapply Forall_impl; [exact Hev|].
  intros e [[Hc Hl]|H]; [left|by right].
  split; [|done]. unfold is_list_call. by rewrite Hc.
Qed.

Lemma DeleteInstances_footprint instances w :
  held (snd (DeleteInstances az instances w)) = held w /\
  exists evs,
    trace (snd (DeleteInstances az instances w)) = trace w ++ evs /\
    (length evs <= 1)%nat /\
    Forall (issued_under is_delete_call (instanceMutex :: held w)) evs.
Proof.
  destruct (DeleteInstances az instances w) as [o w'] eqn:E. simpl.
  apply DeleteInstances_cases in E
    as [->|(c & ids & _ & _ & _ & [(e & _ & ->)|(_ & ->)])].
  - split; [done|]. exists []. rewrite app_nil_r.
    split; [done|]. split; [simpl; lia|constructor].
  - simpl. split; [done|]. eexists. split; [reflexivity|].
    split; [simpl; lia|]. by repeat constructor.
  - simpl. split; [done|]. eexists. split; [reflexivity|].
    split; [simpl; lia|]. by repeat constructor.
Qed.

Lemma deleteNodesLoop_world nodes refs w :
  snd (deleteNodesLoop az nodes refs w) = w.
Proof.
  revert refs. induction nodes as [|n l IH]; intros refs; simpl; [done|].
  unM. destruct (Belongs_cases az n w) as [[_ ->]|[_ (b & err & -> & Hb)]].
  - apply IH.
  - simpl. destruct b, err as [e|]; simpl; first [done | by destruct Hb].
Qed.

End Footprints.

(** X19.  The calls of the two operations that change the size.
    [IncreaseSize] makes list calls, with the size lock and the group
    cache lock held, and capacity calls, with the size lock alone; it
    never makes a delete call.  [DeleteNodes] makes the same list calls
    and delete calls, under [instanceMutex] alone; it never makes a
    capacity call.  Both give back every lock on every path. *)
Theorem mutations_footprint (az : AzureManager) (w : World) :
  (forall delta,
     held (snd (IncreaseSize az delta w)) = held w /\
     exists evs,
       trace (snd (IncreaseSize az delta w)) = trace w ++ evs /\
       Forall (fun e =>
                 issued_under is_list_call
                   (statusCacheMutex :: sizeMutex :: held w) e \/
                 issued_under is_capacity_call (sizeMutex :: held w) e) evs)
  /\
  (forall nodes,
     held (snd (DeleteNodes az nodes w)) = held w /\
     exists evs,
       trace (snd (DeleteNodes az nodes w)) = trace w ++ evs /\
       Forall (fun e =>
                 issued_under is_list_call
                   (statusCacheMutex :: sizeMutex :: held w) e \/
                 issued_under is_delete_call (instanceMutex :: held w) e) evs).
Proof.
  split.
  - intros delta. unfold IncreaseSize.
    destruct (delta <=? 0).
    { simpl. split; [done|]. exists []. by rewrite app_nil_r. }
    unfold GetScaleSetSize. unM.
    destruct (getCurSize_footprint az w) as (Hh & evs & Ht & Hev).
    assert (Forall (fun e =>
                 issued_under is_list_call
                   (statusCacheMutex :: sizeMutex :: held w) e \/
                 issued_under is_capacity_call (sizeMutex :: held w) e) evs)
      as Hev' by (eapply Forall_impl; [exact Hev|]; by left).
    destruct (getCurSize az w) as [[size [e|]] w1]; simpl in *.
    { split; [done|]. by exists evs. }
    destruct (size =? -1); [simpl; split; [done|]; by exists evs|].
    destruct (maxSize (ss w1) <? add64 size delta);
      [simpl; split; [done|]; by exists evs|].
    destruct (SetScaleSetSize_footprint az (add64 size delta) w1)
      as (Hh2 & evs2 & Ht2 & Hev2).
    rewrite Hh2, Ht2, Ht, Hh. split; [done|]. exists (evs ++ evs2).
    rewrite app_assoc. split; [done|]. apply Forall_app. split; [done|].
    by rewrite <- Hh.
  - intros nodes. unfold DeleteNodes, GetScaleSetSize. unM.
    destruct (getCurSize_footprint az w) as (Hh & evs & Ht & Hev).
    assert (Forall (fun e =>
                 issued_under is_list_call
                   (statusCacheMutex :: sizeMutex :: held w) e \/
                 issued_under is_delete_call (instanceMutex :: held w) e) evs)
      as Hev' by (eapply Forall_impl; [exact Hev|]; by left).
    destruct (getCurSize az w) as [[size [e|]] w1]; simpl in *.
    { split; [done|]. by exists evs. }
    destruct (size <=? minSize (ss w1));
      [simpl; split; [done|]; by exists evs|].
    destruct (deleteNodesLoop az nodes [] w1) as [[refs|e] w2] eqn:L.
    + apply deleteNodesLoop_inl in L as [-> _].
      destruct (DeleteInstances_footprint az refs w1)
        as (Hh2 & evs2 & Ht2 & _ & Hev2).
      rewrite Hh2, Ht2, Ht, Hh. split; [done|]. exists (evs ++ evs2).
      rewrite app_assoc. split; [done|]. apply Forall_app. split; [done|].
      rewrite <- Hh. eapply Forall_impl; [exact Hev2|]. by right.
    + pose proof (deleteNodesLoop_world az nodes [] w1) as Hw.
      rewrite L in Hw. simpl in Hw. subst w2.
      simpl. split; [done|]. by exists evs.
Qed.

(** The increase by 1 from a stale cache: a list call under both locks,
    then the capacity call under the size lock. *)
Lemma mutations_footprint_witness :
  map (fun e => (ev_call e, ev_held e))
      (trace (snd (IncreaseSize Scenario.healthy 1 Scenario.stale)))
  = [ (VMSS_List "rg", [statusCacheMutex; sizeMutex]);
      (VMSS_CreateOrUpdateAsync "rg" "vmss-a" (Scenario.vmss "vmss-a" 3),
       [sizeMutex]) ] /\
  held (snd (IncreaseSize Scenario.healthy 1 Scenario.stale)) = [].
Proof.
  destruct (mutations_footprint Scenario.healthy Scenario.stale) as [H _].
  destruct (H 1) as (Hh & _).
  split; [vm_compute; reflexivity|exact Hh].
Defined.

(** X20.  The calls of [Nodes]: the list calls of the size read, made
    with the size lock and the group cache lock held, then at most one
    VM list call, made under [instanceMutex] alone, the size lock having
    been given back; never a capacity or a delete call.  Every lock is
    given back on every path. *)
Theorem Nodes_footprint (az : AzureManager) (w : World) :
  held (snd (Nodes az w)) = held w /\
  exists lists vms,
    trace (snd (Nodes az w)) = trace w ++ lists ++ vms /\
    Forall (issued_under is_list_call
              (statusCacheMutex :: sizeMutex :: held w)) lists /\
    (length vms <= 1)%nat /\
    Forall (issued_under is_vms_list_call (instanceMutex :: held w)) vms.
Proof.
  rewrite Nodes_spec.
  destruct (getCurSize_footprint az w) as (Hh & evs & Ht & Hev).
  destruct (getCurSize az w) as [[size [e|]] w1]; simpl in *.
  { split; [done|]. exists evs, []. rewrite app_nil_r.
    split; [done|]. split; [done|]. split; [simpl; lia|constructor]. }
  destruct (instanceCacheValid size w1).
  { simpl. split; [done|]. exists evs, []. rewrite app_nil_r.
    split; [done|]. split; [done|]. split; [simpl; lia|constructor]. }
  assert (forall w2,
            held w2 = held w1 ->
            trace w2 = trace (afterVMsList az w1) ->
            held w2 = held w /\
            exists lists vms,
              trace w2 = trace w ++ lists ++ vms /\
              Forall (issued_under is_list_call
                        (statusCacheMutex :: sizeMutex :: held w)) lists /\
              (length vms <= 1)%nat /\
              Forall (issued_under is_vms_list_call
                        (instanceMutex :: held w)) vms) as K.
  { intros w2 H2 T2. split; [congruence|].
    exists evs. eexists. rewrite T2. simpl. rewrite Ht, <- app_assoc.
    split; [reflexivity|]. split; [done|]. split; [simpl; lia|].
    rewrite Hh. by repeat constructor. }
  destruct (VMs_List az _ _ _) as [vms [e|]];
    [destruct (isAzureRequestsThrottled az e)|]; apply K; reflexivity.
Qed.

Lemma Nodes_footprint_witness :
  map (fun e => (ev_call e, ev_held e))
      (trace (snd (Nodes Cases.grown Scenario.stale)))
  = [ (VMSS_List "rg", [statusCacheMutex; sizeMutex]);
      (VMSSVMs_List "rg" "vmss-a", [instanceMutex]) ] /\
  held (snd (Nodes Cases.grown Scenario.stale)) = [].
Proof.
  destruct (Nodes_footprint Cases.grown Scenario.stale) as (Hh & _).
  split; [vm_compute; reflexivity|exact Hh].
Defined.

(** X21.  What the observer of a capacity update does with the answer
    of the wait.  It makes the one wait call while holding no lock of
    its own.  If the wait is reported as a success the instance cache is
    put out of date, otherwise the instance cache is left alone; if no
    error is left after the report, the size cache and the group cache
    are left alone: [curSize], [lastSizeRefresh] and the group cache are
    as before. *)
Theorem waitForUpdateVMSSCapacity_outcomes
    (az : AzureManager) (future : Future) (w : World) :
  let report :=
    isSuccessHTTPResponse az
      (fst (WaitForCreateOrUpdate az (trace w) future))
      (snd (WaitForCreateOrUpdate az (trace w) future)) in
  let w' := snd (waitForUpdateVMSSCapacity az future w) in
  trace w' = trace w ++ [ {| ev_call := VMSS_WaitForCreateOrUpdate future;
                             ev_held := held w;
                             ev_time := clock w |} ] /\
  held w' = held w /\
  instanceCache (ss w') = instanceCache (ss w) /\
  (fst report = true ->
   lastInstanceRefresh (ss w') = clock w' - vmssInstancesRefreshPeriod) /\
  (fst report = false ->
   lastInstanceRefresh (ss w') = lastInstanceRefresh (ss w)) /\
  (snd report = None ->
   curSize (ss w') = curSize (ss w) /\
   lastSizeRefresh (ss w') = lastSizeRefresh (ss w) /\
   scaleSetStatusCache w' = scaleSetStatusCache w).
Proof.
  simpl. unfold waitForUpdateVMSSCapacity.
  unfold backend, mbind, mret, M_bind, M_ret.
  destruct (WaitForCreateOrUpdate az (trace w) future) as [resp err]. simpl.
  destruct (isSuccessHTTPResponse az resp err) as [[|] [e|]]; simpl;
    rewrite ?invalidateInstanceCache_spec,
            ?invalidateStatusCacheWithLock_spec; simpl;
    repeat split; try done.
Qed.

(** The wait on the future of [SetScaleSetSize 3] succeeds. *)
Lemma waitForUpdateVMSSCapacity_outcomes_witness :
  let w0 := snd (SetScaleSetSize Scenario.healthy 3 Scenario.steady) in
  let w1 := snd (waitForUpdateVMSSCapacity Scenario.healthy 0%nat w0) in
  curSize (ss w1) = 3 /\
  lastSizeRefresh (ss w1) = lastSizeRefresh (ss w0) /\
  instanceCacheFresh w1 = false.
Proof.
  intros w0 w1.
  destruct (waitForUpdateVMSSCapacity_outcomes Scenario.healthy 0%nat w0)
    as (_ & _ & _ & I & _ & S).
  destruct (S eq_refl) as (C & L & _).
  split; [|split].
  - unfold w1. rewrite C. reflexivity.
  - exact L.
  - unfold instanceCacheFresh, Time_After, Time_Add. fold w1 in I.
    rewrite (I eq_refl). apply Z.ltb_ge. lia.
Defined.

(** ** Deleting twice *)

(** X22.  [DeleteInstances] leaves the instance cache alone: after a
    successful call the cached instances and their timestamp are as
    before, so the same instances are eligible again.  A second
    successful call for the same list therefore sends the same ids to
    the same group once more and takes their number off [curSize] a
    second time. *)
Theorem DeleteInstances_twice
    (az : AzureManager) (instances : list azureRef) (w w1 w2 : World) :
  DeleteInstances az instances w = (Returns None, w1) ->
  DeleteInstances az instances w1 = (Returns None, w2) ->
  let ids := map (segment az) (eligible w instances) in
  instanceCache (ss w1) = instanceCache (ss w) /\
  lastInstanceRefresh (ss w1) = lastInstanceRefresh (ss w) /\
  eligible w1 instances = eligible w instances /\
  (ids <> [] ->
   curSize (ss w2)
   = sub64 (sub64 (curSize (ss w)) (Z.of_nat (length ids)))
           (Z.of_nat (length ids)) /\
   exists common,
     map ev_call (trace w2)
     = map ev_call (trace w)
       ++ [deleteCall az common ids; deleteCall az common ids]).
Proof.
  intros E1 E2 ids.
  assert (instanceCache (ss w1) = instanceCache (ss w) /\
          lastInstanceRefresh (ss w1) = lastInstanceRefresh (ss w))
    as [Hc Hl].
  { apply DeleteInstances_success in E1
      as [[_ ->]|(f & r & c & fu & _ & _ & _ & _ & _ & ->)]; done. }
  assert (eligible w1 instances = eligible w instances) as He.
  { unfold eligible, skipped. by rewrite Hc. }
  split; [done|]. split; [done|]. split; [done|]. intros Hne.
  apply DeleteInstances_success in E1
    as [[Hnil _]|(f & r & c & fu & -> & _ & G & _ & _ & ->)]; [done|].
  apply DeleteInstances_success in E2
    as [[Hnil _]|(f' & r' & c' & fu' & [= <- <-] & _ & G' & _ & _ & ->)].
  { rewrite He in Hnil. done. }
  rewrite G in G'. injection G' as <-.
  rewrite He. fold ids. simpl. split; [done|].
  exists c. rewrite !map_app. simpl. by rewrite <- app_assoc.
Qed.

(** [a0] deleted twice from the group cached at size 2. *)
Lemma DeleteInstances_twice_witness :
  exists w1 w2,
    DeleteInstances Scenario.healthy [Scenario.a0] Scenario.steady
      = (Returns None, w1) /\
    DeleteInstances Scenario.healthy [Scenario.a0] w1 = (Returns None, w2) /\
    curSize (ss w2) = 0 /\
    map ev_call (trace w2)
    = [VMSS_DeleteInstancesAsync "rg" "vmss-a" ["0"];
       VMSS_DeleteInstancesAsync "rg" "vmss-a" ["0"]].
Proof.
  pose (w1 := snd (DeleteInstances Scenario.healthy [Scenario.a0]
                     Scenario.steady)).
  pose (w2 := snd (DeleteInstances Scenario.healthy [Scenario.a0] w1)).
  assert (DeleteInstances Scenario.healthy [Scenario.a0] Scenario.steady
          = (Returns None, w1)) as E1 by (vm_compute; reflexivity).
  assert (DeleteInstances Scenario.healthy [Scenario.a0] w1
          = (Returns None, w2)) as E2 by (vm_compute; reflexivity).
  exists w1, w2. split; [exact E1|]. split; [exact E2|].
  destruct (DeleteInstances_twice _ _ _ _ _ E1 E2) as (_ & _ & _ & H).
  split; [|vm_compute; reflexivity].
  destruct H as (C & _).
  - intros N. vm_compute in N. discriminate N.
  - rewrite C. reflexivity.
Defined.

(** ** Lists over two groups *)

(** X23.  A list in which two instances resolve to groups whose ids
    differ (as [strings.EqualFold] compares them) is never deleted from:
    [DeleteInstances] does not succeed and the world is left exactly as
    it was, so no delete call has been issued and [curSize] is
    unchanged.  When no instance of the list is one that the manager
    resolves to no group, the call ends by returning an error. *)
Theorem DeleteInstances_mixed_groups
    (az : AzureManager) (instances : list azureRef) (i j : azureRef)
    (gi gj : NodeGroup) (w : World) :
  i ∈ instances -> j ∈ instances ->
  GetAsgForInstance az i = (Some gi, None) ->
  GetAsgForInstance az j = (Some gj, None) ->
  EqualFold (ng_Id gi) (ng_Id gj) = false ->
  exists o,
    DeleteInstances az instances w = (o, w) /\
    o <> Returns None /\
    ((forall k, k ∈ instances -> GetAsgForInstance az k <> (None, None)) ->
     exists e, o = Returns (Some e)) /\
    trace (snd (DeleteInstances az instances w)) = trace w /\
    curSize (ss (snd (DeleteInstances az instances w))) = curSize (ss w).
Proof.
  intros Hi Hj Gi Gj Hne.
  assert (forall o, o <> Returns None -> o <> Panics ->
                    exists e, o = Returns (Some e)) as Herr.
  { intros [[e|]|] ? ?; [by exists e|done|done]. }
  destruct instances as [|first rest]; [by apply elem_of_nil in Hi|].
  unfold DeleteInstances.
  destruct (GetAsgForInstance az first) as [common [e|]] eqn:G.
  { exists (Returns (Some e)). repeat split; try done. by exists e. }
  unM. rewrite deleteInstancesLoop_eq.
  destruct (fst (deleteInstancesLoop az common (first :: rest) [] w))
    as [ids|o] eqn:E.
  - exfalso.
    pose proof (deleteInstancesLoop_eq az common (first :: rest) [] w) as L.
    rewrite E in L.
    apply deleteInstancesLoop_Done in L as [[|(c & _ & HF)] _]; [done|].
    rewrite Forall_forall in HF.
    destruct (HF i Hi) as (ai & Ai & Fi).
    destruct (HF j Hj) as (aj & Aj & Fj).
    rewrite Gi in Ai. rewrite Gj in Aj. simplify_eq.
    apply EqualFold_true in Fi, Fj.
    assert (EqualFold (ng_Id ai) (ng_Id aj) = true) as T
      by (apply EqualFold_true; congruence).
    congruence.
  - pose proof (deleteInstancesLoop_eq az common (first :: rest) [] w) as L.
    rewrite E in L.
    apply deleteInstancesLoop_Exit in L as [Ho Hp].
    exists o. repeat split; try done.
    intros Hk. apply Herr; [done|]. intros ->.
    destruct (Hp eq_refl) as [->|(k & Hin & Gk)].
    + by apply (Hk first); [left|].
    + by apply (Hk k).
Qed.

(** [a0] is in [vmss-a] and [b0] in [vmss-b]: the request is refused. *)
Lemma DeleteInstances_mixed_groups_witness :
  DeleteInstances Scenario.healthy [Scenario.a0; Scenario.b0] Scenario.steady
  = (Returns (Some (ErrNotSameScaleSet "azure://vmss-b/0" "vmss-a")),
     Scenario.steady).
Proof.
  destruct (DeleteInstances_mixed_groups Scenario.healthy
              [Scenario.a0; Scenario.b0] Scenario.a0 Scenario.b0
              Scenario.groupA Scenario.groupB Scenario.steady)
    as (o & E & _).
  - by left.
  - right. by left.
  - reflexivity.
  - reflexivity.
  - reflexivity.
  - rewrite E. f_equal.
    assert (fst (DeleteInstances Scenario.healthy
                   [Scenario.a0; Scenario.b0] Scenario.steady)
            = Returns (Some (ErrNotSameScaleSet "azure://vmss-b/0" "vmss-a")))
      as F by (vm_compute; reflexivity).
    by rewrite E in F.
Defined.
